(** * shoplinno-backend: the API gateway, embedded and verified

    The repository holds two versions of one Express application:
    [src/index.js] (called variant A below) and [src/unnamed/part_000]
    (variant B).  Both mount the same routes over a Supabase client; they
    differ in validation, in the handling of unknown plans, in the origin
    of [user_id], in what a database failure sends back and in the shape
    of the success responses.

    The development has three layers:
    - [JSDate]: the ECMAScript date arithmetic behind [new Date()],
      [getMonth], [setMonth], [getFullYear], [setFullYear] and
      [toISOString] (ECMA-262, section 21.4.1), on integer time values;
    - [JS]: parsed JSON values with the language's truthiness, property
      access, string conversion and the regular expression used by the
      contact form;
    - [Server]: a state-and-exception monad for one request (database
      client, clock, identifier generators, console) and the route
      handlers of both variants, written in the order the source performs
      its effects. *)

From Stdlib Require Import ZArith List String Ascii Bool Lia DecimalString.
Import ListNotations.

Open Scope string_scope.
Open Scope Z_scope.

(* ================================================================== *)
(** * Definitions *)
(* ================================================================== *)

(** ** The date primitive *)

Module JSDate.

(** A time value is a number of milliseconds since the epoch, or NaN.
    Every intermediate result the handlers can reach lies below 2^53 in
    absolute value, where the language's doubles are exact integers, so
    time values are integers here and NaN is [None]. *)
Definition time_value := option Z.

Definition msPerDay : Z := 86400000.
Definition msPerHour : Z := 3600000.
Definition msPerMinute : Z := 60000.
Definition msPerSecond : Z := 1000.

(** The largest magnitude of a valid time value. *)
Definition maxTime : Z := 8640000000000000.

Definition Day (t : Z) : Z := t / msPerDay.
Definition TimeWithinDay (t : Z) : Z := t mod msPerDay.

Definition DaysInYear (y : Z) : Z :=
  if negb (y mod 4 =? 0) then 365
  else if negb (y mod 100 =? 0) then 366
  else if negb (y mod 400 =? 0) then 365
  else 366.

Definition DayFromYear (y : Z) : Z :=
  365 * (y - 1970) + (y - 1969) / 4 - (y - 1901) / 100 + (y - 1601) / 400.

Definition TimeFromYear (y : Z) : Z := msPerDay * DayFromYear y.

(** The standard defines [YearFromTime t] as the largest [y] with
    [TimeFromYear y <= t].  The executable form estimates the year from the
    mean length of a Gregorian year and corrects the estimate by one;
    [year_of_day_spec] and [year_of_day_unique] show it is that largest [y]. *)
Definition year_of_day (d : Z) : Z :=
  let y := 1970 + (400 * d) / 146097 in
  if DayFromYear (y + 1) <=? d then y + 1
  else if DayFromYear y <=? d then y
  else y - 1.

Definition YearFromTime (t : Z) : Z := year_of_day (Day t).

Definition leap_days (y : Z) : Z := if DaysInYear y =? 366 then 1 else 0.

Definition InLeapYear (t : Z) : Z := leap_days (YearFromTime t).

Definition DayWithinYear (t : Z) : Z := Day t - DayFromYear (YearFromTime t).

(** Number of days of the year before month [m] (0 = January), given the
    leap-day count [L] of the year. *)
Definition month_start (m L : Z) : Z :=
  match m with
  | 0 => 0
  | 1 => 31
  | 2 => 59 + L
  | 3 => 90 + L
  | 4 => 120 + L
  | 5 => 151 + L
  | 6 => 181 + L
  | 7 => 212 + L
  | 8 => 243 + L
  | 9 => 273 + L
  | 10 => 304 + L
  | 11 => 334 + L
  | _ => 365 + L
  end.

Definition month_of_yday (dwy L : Z) : Z :=
  if dwy <? 31 then 0
  else if dwy <? 59 + L then 1
  else if dwy <? 90 + L then 2
  else if dwy <? 120 + L then 3
  else if dwy <? 151 + L then 4
  else if dwy <? 181 + L then 5
  else if dwy <? 212 + L then 6
  else if dwy <? 243 + L then 7
  else if dwy <? 273 + L then 8
  else if dwy <? 304 + L then 9
  else if dwy <? 334 + L then 10
  else 11.

Definition MonthFromTime (t : Z) : Z :=
  month_of_yday (DayWithinYear t) (InLeapYear t).

Definition DateFromTime (t : Z) : Z :=
  DayWithinYear t - month_start (MonthFromTime t) (InLeapYear t) + 1.

Definition HourFromTime (t : Z) : Z := (t / msPerHour) mod 24.
Definition MinFromTime (t : Z) : Z := (t / msPerMinute) mod 60.
Definition SecFromTime (t : Z) : Z := (t / msPerSecond) mod 60.
Definition msFromTime (t : Z) : Z := t mod msPerSecond.

(** [MakeDay]: the day number of the first day of month [month mod 12] of
    year [year + floor (month / 12)], plus [date - 1]. *)
Definition MakeDay (year month date : Z) : Z :=
  let ym := year + month / 12 in
  let mn := month mod 12 in
  DayFromYear ym + month_start mn (leap_days ym) + date - 1.

Definition MakeDate (day time : Z) : Z := day * msPerDay + time.

Definition TimeClip (t : Z) : time_value :=
  if maxTime <? Z.abs t then None else Some t.

Section LocalZone.

(** [LocalTZA t isUTC]: the offset of the server's time zone in
    milliseconds, at the UTC time [t] when [isUTC] and at the local time
    [t] otherwise.  It is configuration of the host. *)
Variable LocalTZA : Z -> bool -> Z.

Definition LocalTime (t : Z) : Z := t + LocalTZA t true.
Definition UTC (t : Z) : Z := t - LocalTZA t false.

Definition getMonth (tv : time_value) : option Z :=
  match tv with
  | None => None
  | Some t => Some (MonthFromTime (LocalTime t))
  end.

Definition getFullYear (tv : time_value) : option Z :=
  match tv with
  | None => None
  | Some t => Some (YearFromTime (LocalTime t))
  end.

(** [d.setMonth(month)]: the new time value of [d]. *)
Definition setMonth (tv : time_value) (month : option Z) : time_value :=
  match tv, month with
  | Some t0, Some m =>
      let t := LocalTime t0 in
      let newDate :=
        MakeDate (MakeDay (YearFromTime t) m (DateFromTime t))
                 (TimeWithinDay t) in
      TimeClip (UTC newDate)
  | _, _ => None
  end.

(** [d.setFullYear(year)]: an invalid date is first reset to +0. *)
Definition setFullYear (tv : time_value) (year : option Z) : time_value :=
  match year with
  | Some y =>
      let t := match tv with Some t0 => LocalTime t0 | None => 0 end in
      let newDate :=
        MakeDate (MakeDay y (MonthFromTime t) (DateFromTime t))
                 (TimeWithinDay t) in
      TimeClip (UTC newDate)
  | None => None
  end.

End LocalZone.

(** Decimal digits, for the fixed-width fields of an ISO timestamp. *)
Definition digit (n : Z) : ascii := ascii_of_nat (48 + Z.to_nat (n mod 10)).

Fixpoint pad (width : nat) (n : Z) : string :=
  match width with
  | O => EmptyString
  | S w => pad w (n / 10) ++ String (digit n) EmptyString
  end.

Definition iso_year (y : Z) : string :=
  if (0 <=? y) && (y <=? 9999) then pad 4 y
  else if y <? 0 then "-" ++ pad 6 (- y)
  else "+" ++ pad 6 y.

(** The text [toISOString] produces for a valid time value. *)
Definition iso_string (t : Z) : string :=
  iso_year (YearFromTime t) ++ "-" ++ pad 2 (MonthFromTime t + 1) ++ "-"
  ++ pad 2 (DateFromTime t) ++ "T" ++ pad 2 (HourFromTime t) ++ ":"
  ++ pad 2 (MinFromTime t) ++ ":" ++ pad 2 (SecFromTime t) ++ "."
  ++ pad 3 (msFromTime t) ++ "Z".

(** Civil reading of a (local) time: the fields a calendar shows. *)
Record civil := Civil {
  c_year : Z;
  c_month : Z;          (* 0 = January *)
  c_day : Z;            (* 1-based day of the month *)
  c_time : Z            (* milliseconds since midnight *)
}.

Definition civil_of (t : Z) : civil :=
  Civil (YearFromTime t) (MonthFromTime t) (DateFromTime t) (TimeWithinDay t).

(** The Gregorian calendar as the specification reads it: leap years and
    the lengths of the months. *)
Definition leap_year (y : Z) : bool :=
  ((y mod 4 =? 0) && negb (y mod 100 =? 0)) || (y mod 400 =? 0).

Definition DaysInMonth (y m : Z) : Z :=
  match m with
  | 1 => if leap_year y then 29 else 28
  | 3 | 5 | 8 | 10 => 30
  | _ => 31
  end.

(** The same length read off the table of the primitive. *)
Definition month_span (y m : Z) : Z :=
  month_start (m + 1) (leap_days y) - month_start m (leap_days y).

(** The calendar rule, written from the specification: keep the day of the
    month and the time of day in the target month; a day the target month
    does not have rolls into the month that follows. *)
Definition roll_into (y m d tm : Z) : civil :=
  if d <=? DaysInMonth y m then Civil y m d tm
  else if m =? 11 then Civil (y + 1) 0 (d - DaysInMonth y m) tm
  else Civil y (m + 1) (d - DaysInMonth y m) tm.

Definition plus_months (k : Z) (c : civil) : civil :=
  roll_into (c_year c + (c_month c + k) / 12) ((c_month c + k) mod 12)
            (c_day c) (c_time c).

Definition plus_years (k : Z) (c : civil) : civil :=
  roll_into (c_year c + k) (c_month c) (c_day c) (c_time c).

End JSDate.


(** ** Values of the language *)

Module JS.

Set Warnings "-register-all".

(** What [express.json()] can put in a request body, plus [undefined] for
    an absent property.  No handler does arithmetic on a number of the
    request: it is only tested for truth, compared and converted to a
    string.  A number is therefore given by the text the language prints
    for it ([Number::toString]: "42", "1.5", "1e+21", "Infinity", and "0"
    for both zeros), which decides all three.  Strings are sequences of
    code units below 256. *)
Inductive value :=
  | VUndefined
  | VNull
  | VBool (b : bool)
  | VNum (text : string)
  | VStr (s : string)
  | VArr (items : list value)
  | VObj (fields : list (string * value)).

(** A parsed JSON object, by its own properties: the [req.body] that
    [express.json()] hands to a handler.  (An array body has none of the
    keys the handlers read and behaves as the empty object.) *)
Definition object := list (string * value).

Fixpoint lookup (k : string) (o : object) : value :=
  match o with
  | [] => VUndefined
  | (k', v) :: rest => if String.eqb k k' then v else lookup k rest
  end.

(** [!v] is [negb (truthy v)]. *)
Definition truthy (v : value) : bool :=
  match v with
  | VUndefined | VNull => false
  | VBool b => b
  | VNum text => negb (String.eqb text "0")
  | VStr s => negb (String.eqb s "")
  | VArr _ | VObj _ => true
  end.

Definition nullish (v : value) : bool :=
  match v with
  | VUndefined | VNull => true
  | _ => false
  end.

(** [v.k] for a [v] that is neither [undefined] nor [null]; the keys read
    by the handlers are no built-in property of a string, number, boolean
    or array, so only an object can answer. *)
Definition get_prop (v : value) (k : string) : value :=
  match v with
  | VObj o => lookup k o
  | _ => VUndefined
  end.

(** [v?.k] *)
Definition opt_prop (v : value) (k : string) : value :=
  if nullish v then VUndefined else get_prop v k.

(** [a || b] *)
Definition or_else (a b : value) : value := if truthy a then a else b.

(** [v === "s"] *)
Definition strict_eq_str (v : value) (s : string) : bool :=
  match v with
  | VStr s' => String.eqb s' s
  | _ => false
  end.

Definition string_of_Z (n : Z) : string := NilZero.string_of_int (Z.to_int n).

(** Does the object have an own property [k]? *)
Definition has_key (k : string) (o : object) : bool :=
  existsb (fun kv => String.eqb (fst kv) k) o.

(** [ToString], as applied by template literals, by [+] with a string and
    by [RegExp.prototype.test]; [None] when it throws a [TypeError].  A
    parsed object is printed by [Object.prototype.toString], unless an own
    property [toString] hides that method: the own value is no function,
    [valueOf] gives back the object, and no primitive value is found.  An
    array is printed by [join], which converts its elements in turn. *)
Fixpoint to_string (v : value) : option string :=
  match v with
  | VUndefined => Some "undefined"
  | VNull => Some "null"
  | VBool true => Some "true"
  | VBool false => Some "false"
  | VNum text => Some text
  | VStr s => Some s
  | VArr items =>
      (fix join (l : list value) : option string :=
         match l with
         | [] => Some ""
         | x :: rest =>
             match (match x with
                    | VUndefined | VNull => Some ""
                    | _ => to_string x
                    end) with
             | None => None
             | Some sx =>
                 match rest with
                 | [] => Some sx
                 | _ =>
                     match join rest with
                     | None => None
                     | Some sr => Some (sx ++ "," ++ sr)
                     end
                 end
             end
         end) items
  | VObj fields =>
      if has_key "toString" fields then None else Some "[object Object]"
  end.

(** *** Regular expressions

    The fragment the contact form needs: character classes, concatenation,
    alternation and repetition, matched against the whole input (the
    pattern is anchored with [^] and [$] and has no flags). *)
Inductive regex :=
  | Void
  | Eps
  | Class (p : ascii -> bool)
  | Cat (r1 r2 : regex)
  | Alt (r1 r2 : regex)
  | Star (r : regex).

Definition Plus (r : regex) : regex := Cat r (Star r).

Fixpoint nullable (r : regex) : bool :=
  match r with
  | Void => false
  | Eps => true
  | Class _ => false
  | Cat r1 r2 => nullable r1 && nullable r2
  | Alt r1 r2 => nullable r1 || nullable r2
  | Star _ => true
  end.

Fixpoint deriv (c : ascii) (r : regex) : regex :=
  match r with
  | Void => Void
  | Eps => Void
  | Class p => if p c then Eps else Void
  | Cat r1 r2 =>
      if nullable r1 then Alt (Cat (deriv c r1) r2) (deriv c r2)
      else Cat (deriv c r1) r2
  | Alt r1 r2 => Alt (deriv c r1) (deriv c r2)
  | Star r1 => Cat (deriv c r1) (Star r1)
  end.

Fixpoint matches (r : regex) (s : string) : bool :=
  match s with
  | EmptyString => nullable r
  | String c rest => matches (deriv c r) rest
  end.

(** The words of a regular expression. *)
Inductive lang : regex -> string -> Prop :=
  | lang_eps : lang Eps ""
  | lang_class p c : p c = true -> lang (Class p) (String c "")
  | lang_cat r1 r2 s1 s2 :
      lang r1 s1 -> lang r2 s2 -> lang (Cat r1 r2) (s1 ++ s2)
  | lang_alt_l r1 r2 s : lang r1 s -> lang (Alt r1 r2) s
  | lang_alt_r r1 r2 s : lang r2 s -> lang (Alt r1 r2) s
  | lang_star_nil r : lang (Star r) ""
  | lang_star_cons r s1 s2 :
      lang r s1 -> lang (Star r) s2 -> lang (Star r) (s1 ++ s2).

(** [\s] on code units below 256: tab, line feed, vertical tab, form feed,
    carriage return, space and the no-break space. *)
Definition is_space (c : ascii) : bool :=
  let n := N_of_ascii c in
  ((9 <=? n) && (n <=? 13) || (n =? 32) || (n =? 160))%N.

Definition is_char (x c : ascii) : bool := Ascii.eqb c x.

(** [[^\s@]] *)
Definition not_space_at (c : ascii) : bool :=
  negb (is_space c) && negb (is_char "@" c).

(** [/^[^\s@]+@[^\s@]+\.[^\s@]+$/] *)
Definition emailRegex : regex :=
  Cat (Plus (Class not_space_at))
      (Cat (Class (is_char "@"))
           (Cat (Plus (Class not_space_at))
                (Cat (Class (is_char "."))
                     (Plus (Class not_space_at))))).

(** [re.test(v)]: the expression is applied to the text of [v]; [None]
    when [v] has no text. *)
Definition regex_test (r : regex) (v : value) : option bool :=
  match to_string v with
  | Some text => Some (matches r text)
  | None => None
  end.

(** The pattern in the specification's words: a local part, [@], a domain,
    a dot and a top-level part, each non-empty and free of white space (and
    of further [@]). *)
Definition clean (s : string) : Prop :=
  s <> "" /\
  forall c, In c (list_ascii_of_string s) -> not_space_at c = true.

Definition simple_email (s : string) : Prop :=
  exists l d t, s = l ++ "@" ++ d ++ "." ++ t /\ clean l /\ clean d /\ clean t.

End JS.

(** ** One request against the server *)

Module Server.

Import JSDate JS.

(** An [Error] object: what is thrown, caught, logged, and what the
    database client hands back in the [error] field of a result. *)
Record Exn := { exn_name : string; exn_message : string }.

(** How the database behaves at one call of its client.  The Supabase
    client resolves a query with a result [{data, error}] and hands every
    failure back in [error]: that is [ReturnsError].  [Raises] is a client
    whose promise rejects instead, which is what the [catch] blocks of the
    handlers are written for. *)
Inductive DbFault :=
  | Healthy
  | ReturnsError (e : Exn)
  | Raises (e : Exn).

Inductive DbOp :=
  | Insert (table : string) (row : value)
  | Select (table columns order_by : string) (ascending : bool).

(** Everything outside the handler: the host's time zone, the system
    clock (its n-th reading, a time value), the two sources of
    identifiers, and the database service (its failures per call, and how
    it answers an ordered select). *)
Record World := {
  LocalTZA : Z -> bool -> Z;
  clock : nat -> Z;
  randomUUID : nat -> string;
  random36 : nat -> string;
  db_fault : nat -> DbFault;
  db_query : string -> string -> string -> bool -> list value -> list value
}.

(** What one request can change or consume: the rows the database holds
    (table name, row), the calls made on its client, how many readings of
    each source were taken, and the server's console. *)
Record State := {
  db : list (string * value);
  db_calls : list DbOp;
  clock_reads : nat;
  uuid_draws : nat;
  random_draws : nat;
  console : list (string * list Exn)
}.

Definition initial_state (rows : list (string * value)) : State :=
  {| db := rows; db_calls := []; clock_reads := 0; uuid_draws := 0;
     random_draws := 0; console := [] |}.

Definition rows_of (table : string) (rows : list (string * value)) : list value :=
  map snd (filter (fun r => String.eqb (fst r) table) rows).

Inductive Result (A : Type) :=
  | Ok (a : A)
  | Throw (e : Exn).
Arguments Ok {A} a.
Arguments Throw {A} e.

Definition M (A : Type) : Type := State -> Result A * State.

Definition ret {A} (a : A) : M A := fun s => (Ok a, s).

Definition bind {A B} (m : M A) (k : A -> M B) : M B :=
  fun s =>
    match m s with
    | (Ok a, s') => k a s'
    | (Throw e, s') => (Throw e, s')
    end.

Definition throw {A} (e : Exn) : M A := fun s => (Throw e, s).

(** [try { m } catch (err) { h err }] *)
Definition try_catch {A} (m : M A) (h : Exn -> M A) : M A :=
  fun s =>
    match m s with
    | (Ok a, s') => (Ok a, s')
    | (Throw e, s') => h e s'
    end.

Notation "x <- m ;; k" := (bind m (fun x => k))
  (at level 61, m at next level, right associativity).
Notation "m ;;; k" := (bind m (fun _ => k))
  (at level 61, right associativity).

Record Response := { status : Z; body : value }.

(** [res.json(v)] *)
Definition json (v : value) : Response := {| status := 200; body := v |}.

(** [res.status(code).json(v)] *)
Definition status_json (code : Z) (v : value) : Response :=
  {| status := code; body := v |}.

Definition nl : string := String (ascii_of_nat 10) EmptyString.

Fixpoint trim_start (s : string) : string :=
  match s with
  | EmptyString => EmptyString
  | String c rest => if is_space c then trim_start rest else s
  end.

Fixpoint rev_string (acc s : string) : string :=
  match s with
  | EmptyString => acc
  | String c rest => rev_string (String c acc) rest
  end.

(** [s.trim()] *)
Definition trim (s : string) : string :=
  rev_string "" (trim_start (rev_string "" (trim_start s))).

Section Primitives.

Variable W : World.

(** [new Date()] *)
Definition new_Date : M time_value :=
  fun s =>
    (Ok (Some (clock W (clock_reads s))),
     {| db := db s; db_calls := db_calls s;
        clock_reads := S (clock_reads s); uuid_draws := uuid_draws s;
        random_draws := random_draws s; console := console s |}).

(** [Date.now()] *)
Definition Date_now : M Z :=
  fun s =>
    (Ok (clock W (clock_reads s)),
     {| db := db s; db_calls := db_calls s;
        clock_reads := S (clock_reads s); uuid_draws := uuid_draws s;
        random_draws := random_draws s; console := console s |}).

(** The [RangeError] of an invalid date. *)
Definition invalid_time : Exn :=
  {| exn_name := "RangeError"; exn_message := "Invalid time value" |}.

(** [d.toISOString()] throws a [RangeError] on an invalid date. *)
Definition toISOString (tv : time_value) : M string :=
  match tv with
  | Some t => ret (iso_string t)
  | None => throw invalid_time
  end.

(** [crypto.randomUUID()] *)
Definition crypto_randomUUID : M string :=
  fun s =>
    (Ok (randomUUID W (uuid_draws s)),
     {| db := db s; db_calls := db_calls s;
        clock_reads := clock_reads s; uuid_draws := S (uuid_draws s);
        random_draws := random_draws s; console := console s |}).

(** [Math.random().toString(36).substr(2, 9)]: up to nine base-36
    digits of a pseudo-random fraction, taken as the source gives them. *)
Definition Math_random_token : M string :=
  fun s =>
    (Ok (random36 W (random_draws s)),
     {| db := db s; db_calls := db_calls s;
        clock_reads := clock_reads s; uuid_draws := uuid_draws s;
        random_draws := S (random_draws s); console := console s |}).

(** [console.error(label, ...errors)] *)
Definition console_error (label : string) (errors : list Exn) : M unit :=
  fun s =>
    (Ok tt,
     {| db := db s; db_calls := db_calls s;
        clock_reads := clock_reads s; uuid_draws := uuid_draws s;
        random_draws := random_draws s;
        console := (console s ++ [(label, errors)])%list |}).

Definition record_call (op : DbOp) (rows : list (string * value))
    (s : State) : State :=
  {| db := rows; db_calls := (db_calls s ++ [op])%list;
     clock_reads := clock_reads s; uuid_draws := uuid_draws s;
     random_draws := random_draws s; console := console s |}.

(** [await supabase.from(table).insert(row)]: the [error] field of the
    result.  A failed insert stores nothing. *)
Definition db_insert (table : string) (row : value) : M (option Exn) :=
  fun s =>
    match db_fault W (List.length (db_calls s)) with
    | Healthy =>
        (Ok None,
         record_call (Insert table row) (db s ++ [(table, row)])%list s)
    | ReturnsError e =>
        (Ok (Some e), record_call (Insert table row) (db s) s)
    | Raises e =>
        (Throw e, record_call (Insert table row) (db s) s)
    end.

(** [await supabase.from(table).select(columns).order(col, {ascending})]:
    the pair of the [data] and [error] fields of the result. *)
Definition db_select (table columns order_by : string) (ascending : bool)
    : M (value * option Exn) :=
  fun s =>
    let op := Select table columns order_by ascending in
    match db_fault W (List.length (db_calls s)) with
    | Healthy =>
        (Ok (VArr (db_query W table columns order_by ascending
                     (rows_of table (db s))), None),
         record_call op (db s) s)
    | ReturnsError e => (Ok (VNull, Some e), record_call op (db s) s)
    | Raises e => (Throw e, record_call op (db s) s)
    end.

(** [v.k], which throws a [TypeError] when [v] is [undefined] or [null] *)
Definition member (v : value) (k : string) : M value :=
  if nullish v then
    throw {| exn_name := "TypeError";
             exn_message := "Cannot read properties of "
                            ++ match v with
                               | VNull => "null"
                               | _ => "undefined"
                               end
                            ++ " (reading '" ++ k ++ "')" |}
  else ret (get_prop v k).

(** The [TypeError] of a conversion that finds no primitive value. *)
Definition conversion_error : Exn :=
  {| exn_name := "TypeError";
     exn_message := "Cannot convert object to primitive value" |}.

(** [ToString(v)] where the handler converts a value: in a template
    literal, in [+] with a string. *)
Definition ToString (v : value) : M string :=
  match to_string v with
  | Some text => ret text
  | None => throw conversion_error
  end.

(** [r.test(v)], which converts [v] first. *)
Definition RegExp_test (r : regex) (v : value) : M bool :=
  match regex_test r v with
  | Some found => ret found
  | None => throw conversion_error
  end.

Definition plus_one (n : option Z) : option Z :=
  match n with Some m => Some (m + 1) | None => None end.

Definition plus_two (n : option Z) : option Z :=
  match n with Some m => Some (m + 2) | None => None end.

(** [endDate.setMonth(endDate.getMonth() + 1)] and its two siblings *)
Definition add_one_month (d : time_value) : time_value :=
  setMonth (LocalTZA W) d (plus_one (getMonth (LocalTZA W) d)).

Definition add_two_months (d : time_value) : time_value :=
  setMonth (LocalTZA W) d (plus_two (getMonth (LocalTZA W) d)).

Definition add_one_year (d : time_value) : time_value :=
  setFullYear (LocalTZA W) d (plus_one (getFullYear (LocalTZA W) d)).

End Primitives.

(** A JSON object literal field. *)
Definition str (s : string) : value := VStr s.

Definition error_list (e : option Exn) : list Exn :=
  match e with Some x => [x] | None => [] end.

(** *** Variant A: [src/index.js] *)

Module IndexJs.
Section Handlers.

Variable W : World.

(** [GET /plans] *)
Definition plans : M Response :=
  try_catch
    (r <- db_select W "plans" "id, name, price, features" "price" true ;;
     match snd r with
     | Some error =>
         console_error "Error fetching plans:" [error] ;;;
         ret (status_json 500
                (VObj [("error", str "Could not fetch plans.")]))
     | None =>
         ret (json (VObj [("success", VBool true); ("plans", fst r)]))
     end)
    (fun err =>
       ret (status_json 500 (VObj [("error", str (exn_message err))]))).

(** [GET /health] *)
Definition health : M Response :=
  d <- new_Date W ;;
  server_time <- toISOString d ;;
  ret (json (VObj [("status", str "OK");
                   ("server_time", str server_time)])).

(** [POST /contact] *)
Definition contact (req_body : object) : M Response :=
  try_catch
    (let name := lookup "name" req_body in
     let email := lookup "email" req_body in
     let message := lookup "message" req_body in
     if negb (truthy name) || negb (truthy email) || negb (truthy message)
     then
       ret (status_json 400
              (VObj [("success", VBool false);
                     ("error",
                      str "All fields are required: name, email, message")]))
     else
       well_formed <- RegExp_test emailRegex email ;;
       if negb well_formed then
         ret (status_json 400
                (VObj [("success", VBool false);
                       ("error", str "Invalid email format")]))
       else
       (* from here on the request is complete and well formed *)
       now <- Date_now W ;;
       token <- Math_random_token W ;;
       let userId := "contact_" ++ string_of_Z now ++ "_" ++ token in
       subject_name <- ToString name ;;
       text_name <- ToString name ;;
       text_email <- ToString email ;;
       text_message <- ToString message ;;
       created <- new_Date W ;;
       created_at <- toISOString created ;;
       dbError <- db_insert W "messages"
         (VObj [("user_id", str userId);
                ("subject", str ("Contact Form: " ++ subject_name));
                ("message",
                 str ("Name: " ++ text_name ++ nl ++ "Email: "
                      ++ text_email ++ nl ++ nl ++ "Message:" ++ nl
                      ++ text_message));
                ("type", str "contact_form");
                ("created_at", str created_at)]) ;;
       match dbError with
       | Some e =>
           console_error "Database error saving contact form:" [e] ;;;
           ret (status_json 500
                  (VObj [("success", VBool false);
                         ("error",
                          str "Failed to save contact message to database")]))
       | None =>
           stamp <- new_Date W ;;
           timestamp <- toISOString stamp ;;
           ret (json
                  (VObj [("success", VBool true);
                         ("message",
                          str "Contact message received successfully");
                         ("data",
                          VObj [("name", name); ("email", email);
                                ("messageId", str userId);
                                ("timestamp", str timestamp)])]))
       end)
    (fun err =>
       console_error "Contact form error:" [err] ;;;
       ret (status_json 500
              (VObj [("success", VBool false);
                     ("error",
                      str "Server error processing contact form")]))).

(** The term of a subscription: [endDate] after the chain of tests on
    [plan_id], for [endDate = new Date(startDate)]. *)
Definition term (plan_id : value) (startDate : time_value) : time_value :=
  let endDate := startDate in
  if strict_eq_str plan_id "monthly" then add_one_month W endDate
  else if strict_eq_str plan_id "2months" then add_two_months W endDate
  else if strict_eq_str plan_id "annual" then add_one_year W endDate
  else add_one_month W endDate.

(** [POST /subscribe] *)
Definition subscribe (req_body : object) : M Response :=
  try_catch
    (let user_id := lookup "user_id" req_body in
     let plan_id := lookup "plan_id" req_body in
     let payment_method := lookup "payment_method" req_body in
     let customer_info := lookup "customer_info" req_body in
     if negb (truthy customer_info) then
       ret (status_json 400 (VObj [("error", str "Customer info missing")]))
     else
       startDate <- new_Date W ;;
       let endDate := term plan_id startDate in
       start_date <- toISOString startDate ;;
       end_date <- toISOString endDate ;;
       subError <- db_insert W "subscriptions"
         (VObj [("user_id", user_id);
                ("plan_id", plan_id);
                ("start_date", str start_date);
                ("end_date", str end_date);
                ("status", str "active")]) ;;
       subject_email <- member customer_info "email" ;;
       subject_text <- ToString subject_email ;;
       fullname <- member customer_info "fullname" ;;
       text_name <- ToString fullname ;;
       email <- member customer_info "email" ;;
       text_email <- ToString email ;;
       phone <- member customer_info "phone" ;;
       text_phone <- ToString (or_else phone (str "N/A")) ;;
       text_plan <- ToString plan_id ;;
       text_payment <- ToString payment_method ;;
       msgError <- db_insert W "messages"
         (VObj [("user_id", user_id);
                ("subject", str ("New IPTV Subscription - " ++ subject_text));
                ("message",
                 str ("Name: " ++ text_name ++ nl ++ "Email: "
                      ++ text_email ++ nl ++ "Phone: " ++ text_phone ++ nl
                      ++ "Plan: " ++ text_plan ++ nl ++ "Payment: "
                      ++ text_payment))]) ;;
       match subError, msgError with
       | None, None =>
           ret (json (VObj [("success", VBool true);
                            ("saved_to_db", VBool true)]))
       | _, _ =>
           console_error "DB Error:"
             (error_list subError ++ error_list msgError)%list ;;;
           ret (status_json 500
                  (VObj [("error", str "Failed to save data to database.")]))
       end)
    (fun err =>
       console_error "Server Error:" [err] ;;;
       ret (status_json 500 (VObj [("error", str (exn_message err))]))).

(** [GET /messages] *)
Definition messages : M Response :=
  try_catch
    (r <- db_select W "messages" "*" "created_at" false ;;
     match snd r with
     | Some error =>
         console_error "Error fetching messages:" [error] ;;;
         ret (status_json 500
                (VObj [("error", str "Could not fetch messages.")]))
     | None =>
         ret (json (VObj [("success", VBool true); ("messages", fst r)]))
     end)
    (fun err =>
       ret (status_json 500 (VObj [("error", str (exn_message err))]))).

End Handlers.
End IndexJs.

(** *** Variant B: [src/unnamed/part_000] *)

Module Part000.
Section Handlers.

Variable W : World.

(** [GET /health] *)
Definition health : M Response :=
  d <- new_Date W ;;
  server_time <- toISOString d ;;
  ret (json (VObj [("status", str "OK");
                   ("server_time", str server_time)])).

(** [GET /plans]; [order("price")] is ascending by default. *)
Definition plans : M Response :=
  try_catch
    (r <- db_select W "plans" "id, name, price, features" "price" true ;;
     match snd r with
     | Some error => throw error
     | None =>
         ret (json (VObj [("success", VBool true); ("plans", fst r)]))
     end)
    (fun err =>
       console_error "Plans fetch error:" [err] ;;;
       ret (status_json 500
              (VObj [("success", VBool false);
                     ("error", str "Unable to fetch plans")]))).

(** The [switch] on [plan_id]; [None] is its [default] branch. *)
Definition term (plan_id : value) (startDate : time_value)
    : option time_value :=
  let endDate := startDate in
  if strict_eq_str plan_id "monthly" then Some (add_one_month W endDate)
  else if strict_eq_str plan_id "2months" then
    Some (add_two_months W endDate)
  else if strict_eq_str plan_id "annual" then Some (add_one_year W endDate)
  else None.

(** [POST /subscribe].  The response carries the two [Date] objects,
    which [res.json] writes through [toJSON], that is as the ISO text
    already computed for the insert. *)
Definition subscribe (req_body : object) : M Response :=
  try_catch
    (let plan_id := lookup "plan_id" req_body in
     let customer_info := lookup "customer_info" req_body in
     if negb (truthy plan_id)
        || negb (truthy (opt_prop customer_info "fullname"))
        || negb (truthy (opt_prop customer_info "email"))
     then
       ret (status_json 400
              (VObj [("success", VBool false);
                     ("error", str "Missing required fields")]))
     else
       startDate <- new_Date W ;;
       match term plan_id startDate with
       | None =>
           ret (status_json 400
                  (VObj [("success", VBool false);
                         ("error", str "Invalid plan")]))
       | Some endDate =>
           user_id <- crypto_randomUUID W ;;
           start_date <- toISOString startDate ;;
           end_date <- toISOString endDate ;;
           subError <- db_insert W "subscriptions"
             (VObj [("user_id", str user_id);
                    ("plan_id", plan_id);
                    ("start_date", str start_date);
                    ("end_date", str end_date);
                    ("status", str "active")]) ;;
           match subError with
           | Some e => throw e
           | None =>
               fullname <- member customer_info "fullname" ;;
               text_name <- ToString fullname ;;
               email <- member customer_info "email" ;;
               text_email <- ToString email ;;
               phone <- member customer_info "phone" ;;
               text_phone <- ToString (or_else phone (str "N/A")) ;;
               text_plan <- ToString plan_id ;;
               msgError <- db_insert W "messages"
                 (VObj [("user_id", str user_id);
                        ("subject", str "New IPTV Subscription");
                        ("message",
                         str (trim
                                (nl ++ "Name: " ++ text_name ++ nl
                                 ++ "Email: " ++ text_email ++ nl
                                 ++ "Phone: " ++ text_phone
                                 ++ nl ++ "Plan: " ++ text_plan
                                 ++ nl ++ "        ")))]) ;;
               match msgError with
               | Some e => throw e
               | None =>
                   ret (json
                          (VObj [("success", VBool true);
                                 ("subscription",
                                  VObj [("plan", plan_id);
                                        ("start_date", str start_date);
                                        ("end_date", str end_date)])]))
               end
           end
       end)
    (fun err =>
       console_error "Subscribe error:" [err] ;;;
       ret (status_json 500
              (VObj [("success", VBool false);
                     ("error", str "Subscription failed")]))).

(** [POST /contact] *)
Definition contact (req_body : object) : M Response :=
  try_catch
    (let name := lookup "name" req_body in
     let email := lookup "email" req_body in
     let message := lookup "message" req_body in
     if negb (truthy name) || negb (truthy email) || negb (truthy message)
     then
       ret (status_json 400
              (VObj [("success", VBool false);
                     ("error", str "Missing fields")]))
     else
       error <- db_insert W "contact_messages"
         (VObj [("name", name); ("email", email); ("message", message)]) ;;
       match error with
       | Some e => throw e
       | None => ret (json (VObj [("success", VBool true)]))
       end)
    (fun err =>
       console_error "Contact error:" [err] ;;;
       ret (status_json 500
              (VObj [("success", VBool false);
                     ("error", str "Unable to send message")]))).

End Handlers.
End Part000.

End Server.

(** ** Notions of the specification *)

Module Spec.

Import JSDate JS Server.

(** Section 4.2: the calendar rule of each plan. *)
Definition calendar_rule (plan : string) : option (civil -> civil) :=
  if String.eqb plan "monthly" then Some (plus_months 1)
  else if String.eqb plan "2months" then Some (plus_months 2)
  else if String.eqb plan "annual" then Some (plus_years 1)
  else None.

(** A plan identifier of the fixed set. *)
Definition recognised (plan_id : value) : Prop :=
  plan_id = VStr "monthly" \/ plan_id = VStr "2months"
  \/ plan_id = VStr "annual".

(** The field [k] of a value that should be an object; anything else has
    no fields. *)
Definition field (v : value) (k : string) : value :=
  match v with
  | VObj o => lookup k o
  | _ => VUndefined
  end.

(** Section 4.1, subscribe: a non-empty [plan_id] and a [customer_info]
    object with non-empty [fullname] and [email]. *)
Definition complete_subscribe (req_body : object) : bool :=
  truthy (lookup "plan_id" req_body)
  && truthy (field (lookup "customer_info" req_body) "fullname")
  && truthy (field (lookup "customer_info" req_body) "email").

(** Section 4.1, contact: non-empty [name], [email] and [message]. *)
Definition complete_contact (req_body : object) : bool :=
  truthy (lookup "name" req_body) && truthy (lookup "email" req_body)
  && truthy (lookup "message" req_body).

(** What a request added to the database, and the calls it made on the
    client. *)
Definition created_rows (before after : State) : list (string * value) :=
  skipn (List.length (db before)) (db after).

Definition calls_made (before after : State) : list DbOp :=
  skipn (List.length (db_calls before)) (db_calls after).

(** The status of the response a handler sent, if it sent one. *)
Definition status_of_first (out : Result Response * State) : option Z :=
  match fst out with
  | Ok r => Some (status r)
  | Throw _ => None
  end.

(** Section 3: a Subscription as it is stored. *)
Definition Subscription (user_id plan_id : value) (start finish : Z) : value :=
  VObj [("user_id", user_id);
        ("plan_id", plan_id);
        ("start_date", VStr (iso_string start));
        ("end_date", VStr (iso_string finish));
        ("status", VStr "active")].

(** A subscription row whose term runs from [start] to [finish]. *)
Definition has_term (row : value) (start finish : Z) : Prop :=
  get_prop row "start_date" = VStr (iso_string start)
  /\ get_prop row "end_date" = VStr (iso_string finish).

(** Section 6: the body of a successful subscribe. *)
Definition subscribed_body (plan : value) (start finish : Z) : value :=
  VObj [("success", VBool true);
        ("subscription",
         VObj [("plan", plan);
               ("start_date", VStr (iso_string start));
               ("end_date", VStr (iso_string finish))])].

Definition subscribed_response (plan : value) (start finish : Z) : Response :=
  json (subscribed_body plan start finish).

(** Does the text [needle] occur in [s]? *)
Fixpoint occurs (needle s : string) : bool :=
  if String.prefix needle s then true
  else match s with
       | EmptyString => false
       | String _ rest => occurs needle rest
       end.

(** Does a response body carry the message of an error anywhere? *)
Fixpoint mentions (needle : string) (v : value) : bool :=
  match v with
  | VStr s => occurs needle s
  | VArr items => existsb (mentions needle) items
  | VObj fields => existsb (fun kv => mentions needle (snd kv)) fields
  | _ => false
  end.

(** Sample surroundings for evaluating the handlers: a server on UTC, a
    clock started at 2024-01-31T00:00:00Z that advances by a millisecond
    per reading, and a database described by its faults. *)
Definition sample_world (faults : nat -> DbFault) : World :=
  {| LocalTZA := fun _ _ => 0;
     clock := fun n => 1706659200000 + Z.of_nat n;
     randomUUID := fun _ => "3b241101-e2bb-4255-8caf-4136c566a962";
     random36 := fun _ => "k3j9x0a1z";
     db_fault := faults;
     db_query := fun _ _ _ _ rows => rows |}.

Definition healthy : nat -> DbFault := fun _ => Healthy.

(** The same server one hour east of UTC, half an hour before the UTC
    midnight that ends January 2024: locally it is already February. *)
Definition sample_world_east : World :=
  {| LocalTZA := fun _ _ => 3600000;
     clock := fun n => 1706743800000 + Z.of_nat n;
     randomUUID := fun _ => "3b241101-e2bb-4255-8caf-4136c566a962";
     random36 := fun _ => "k3j9x0a1z";
     db_fault := healthy;
     db_query := fun _ _ _ _ rows => rows |}.

Definition outage : Exn :=
  {| exn_name := "Error";
     exn_message := "connect ECONNREFUSED 10.0.0.5:5432" |}.

(** A database that returns an error at its [k]-th call only. *)
Definition failing_at (k : nat) : nat -> DbFault :=
  fun n => if Nat.eqb n k then ReturnsError outage else Healthy.

(** A database whose client raises at every call. *)
Definition unreachable : nat -> DbFault := fun _ => Raises outage.

Definition sample_subscribe : object :=
  [("plan_id", VStr "monthly");
   ("customer_info",
    VObj [("fullname", VStr "A"); ("email", VStr "a@b.com")])].

(** A value that can be written as text. *)
Definition has_text (v : value) : bool :=
  match to_string v with
  | Some _ => true
  | None => false
  end.

(** The values of a subscribe request that variant A, and variant B,
    write into the text of the message it stores. *)
Definition note_fields_A (req_body : object) : list value :=
  let customer_info := lookup "customer_info" req_body in
  [get_prop customer_info "email";
   get_prop customer_info "fullname";
   or_else (get_prop customer_info "phone") (VStr "N/A");
   lookup "plan_id" req_body;
   lookup "payment_method" req_body].

Definition note_fields_B (req_body : object) : list value :=
  let customer_info := lookup "customer_info" req_body in
  [get_prop customer_info "fullname";
   get_prop customer_info "email";
   or_else (get_prop customer_info "phone") (VStr "N/A");
   lookup "plan_id" req_body].

(** The values of a contact request that variant A writes into the
    message it stores. *)
Definition note_fields_contact (req_body : object) : list value :=
  [lookup "name" req_body; lookup "email" req_body;
   lookup "message" req_body].

(** Section 4.2 with the time zone written in: the end of a term as a
    function of the server's zone, the plan and the start, the monthly
    rule standing in for any plan outside the set. *)
Definition term_in_zone (tz : Z -> bool -> Z) (plan_id : value) (start : Z)
    : time_value :=
  let local := LocalTime tz start in
  if strict_eq_str plan_id "2months" then
    setMonth tz (Some start) (Some (MonthFromTime local + 2))
  else if strict_eq_str plan_id "annual" then
    setFullYear tz (Some start) (Some (YearFromTime local + 1))
  else setMonth tz (Some start) (Some (MonthFromTime local + 1)).

(** The server on UTC at the instant [sample_world_east] starts from. *)
Definition sample_world_evening : World :=
  {| LocalTZA := fun _ _ => 0;
     clock := fun n => 1706743800000 + Z.of_nat n;
     randomUUID := fun _ => "3b241101-e2bb-4255-8caf-4136c566a962";
     random36 := fun _ => "k3j9x0a1z";
     db_fault := healthy;
     db_query := fun _ _ _ _ rows => rows |}.





Definition failure_flagged (text : string) : Response :=
  status_json 500 (VObj [("success", VBool false); ("error", VStr text)]).


End Spec.

(** ** Start of the application: environment, origins, listener *)

Module Config.

Import JS Server.

(** [process.env]: each variable is a string or absent. *)
Definition Env := string -> option string.

Definition env_var (env : Env) (name : string) : value :=
  match env name with
  | Some v => VStr v
  | None => VUndefined
  end.

(** [a === b] on values that are no objects. *)
Definition strict_eq (a b : value) : bool :=
  match a, b with
  | VUndefined, VUndefined => true
  | VNull, VNull => true
  | VBool x, VBool y => Bool.eqb x y
  | VNum x, VNum y => String.eqb x y
  | VStr x, VStr y => String.eqb x y
  | _, _ => false
  end.

Fixpoint indexOf_from (i : Z) (items : list value) (v : value) : Z :=
  match items with
  | [] => -1
  | x :: rest => if strict_eq x v then i else indexOf_from (i + 1) rest v
  end.

(** [items.indexOf(v)] *)
Definition indexOf (items : list value) (v : value) : Z :=
  indexOf_from 0 items v.

(** [process.env.PORT || 3001], the same line in both files. *)
Definition PORT (env : Env) : value :=
  or_else (env_var env "PORT") (VNum "3001").

(** What becomes of the process that loads the file: it leaves with an
    exit code, or fails on the exception [createClient] threw, or opens a
    listener, or goes on without one, the application being exported to
    the platform.  The lines written on the console at start-up are left
    out. *)
Inductive Startup :=
  | Exits (code : Z)
  | Fails (e : Exn)
  | Listens (port : value)
  | Exported.

(** [createClient(url, key, ...)] of the Supabase library: the exception
    it throws, if any. *)
Definition CreateClient := value -> value -> option Exn.

(** Variant A, [src/index.js]. *)
Module IndexJsApp.

Definition allowedOrigins : list value :=
  [VStr "https://shoplinno.vercel.app"].

(** [corsOptions.origin]: [Ok true] is [callback(null, true)], [Throw] is
    [callback(new Error(...))]. *)
Definition origin (env : Env) (request_origin : value) : Result bool :=
  if truthy (env_var env "VERCEL") || negb (truthy request_origin)
     || negb (indexOf allowedOrigins request_origin =? -1)
  then Ok true
  else Throw {| exn_name := "Error"; exn_message := "Not allowed by CORS" |}.

(** The top level of the file, lines 33 to 214: the missing variables are
    reported on the console only, [createClient] is called with whatever
    the environment holds, and
    [if (process.env.VERCEL === undefined) app.listen(PORT, ...)]. *)
Definition start (createClient : CreateClient) (env : Env) : Startup :=
  match createClient (env_var env "SUPABASE_URL")
          (env_var env "SUPABASE_SECRET_KEY") with
  | Some e => Fails e
  | None =>
      if strict_eq (env_var env "VERCEL") VUndefined
      then Listens (PORT env)
      else Exported
  end.

End IndexJsApp.

(** Variant B, [src/unnamed/part_000]. *)
Module Part000App.

(** The [origin] list handed to [cors]. *)
Definition origin : list value :=
  [VStr "https://www.shoplinno.com"; VStr "https://shoplinno.com";
   VStr "https://shoplinno.vercel.app"; VStr "http://localhost:5173"].

(** The top level of the file, lines 32 to 185:
    [if (!SUPABASE_URL || !SUPABASE_SECRET_KEY) process.exit(1)], then
    [createClient], then [if (!process.env.VERCEL) app.listen(PORT, ...)]. *)
Definition start (createClient : CreateClient) (env : Env) : Startup :=
  let SUPABASE_URL := env_var env "SUPABASE_URL" in
  let SUPABASE_SECRET_KEY := env_var env "SUPABASE_SECRET_KEY" in
  if negb (truthy SUPABASE_URL) || negb (truthy SUPABASE_SECRET_KEY)
  then Exits 1
  else
    match createClient SUPABASE_URL SUPABASE_SECRET_KEY with
    | Some e => Fails e
    | None =>
        if negb (truthy (env_var env "VERCEL"))
        then Listens (PORT env)
        else Exported
    end.

End Part000App.

(** An environment given by its list of variables. *)
Fixpoint env_of (vars : list (string * string)) : Env :=
  fun name =>
    match vars with
    | [] => None
    | (k, v) :: rest => if String.eqb name k then Some v else env_of rest name
    end.

End Config.

(** ** Further notions, for the code around the claims *)

Module Extra.

Import JSDate JS Server Spec.

(** The queries of the two read routes. *)
Definition plans_query : DbOp :=
  Select "plans" "id, name, price, features" "price" true.

Definition messages_query : DbOp :=
  Select "messages" "*" "created_at" false.

(** What the store answers to a query on the rows it holds. *)
Definition answer_of (W : World) (op : DbOp) (rows : list (string * value))
    : value :=
  match op with
  | Select table columns order_by ascending =>
      VArr (db_query W table columns order_by ascending (rows_of table rows))
  | Insert _ _ => VNull
  end.

(** How often the character [c] occurs in [s]. *)
Fixpoint count_char (c : ascii) (s : string) : nat :=
  match s with
  | EmptyString => O
  | String a rest =>
      if Ascii.eqb a c then S (count_char c rest) else count_char c rest
  end.

(** Section 4.1: the phone of a customer, or the sentinel when the
    request has none. *)
Definition phone_text (customer_info : value) : option string :=
  if truthy (get_prop customer_info "phone")
  then to_string (get_prop customer_info "phone")
  else Some "N/A".

(** The four lines both variants write about a new subscription. *)
Definition subscription_note (name email phone plan : string) : string :=
  "Name: " ++ name ++ nl ++ "Email: " ++ email ++ nl
  ++ "Phone: " ++ phone ++ nl ++ "Plan: " ++ plan.

(** The error of the first call that failed among [count] calls on the
    database client, starting with call number [from]. *)
Fixpoint first_failure (W : World) (from count : nat) : option Exn :=
  match count with
  | O => None
  | S rest =>
      match db_fault W from with
      | Healthy => first_failure W (S from) rest
      | ReturnsError e | Raises e => Some e
      end
  end.

(** What went wrong at the database between two states. *)
Definition db_failure (W : World) (before after : State) : option Exn :=
  first_failure W (List.length (db_calls before))
    (List.length (calls_made before after)).

(** A client that takes any two arguments. *)
Definition createClient_ok : Config.CreateClient := fun _ _ => None.

(** A subscribe that pays with the number 1e21. *)
Definition sample_subscribe_number : object :=
  [("plan_id", VStr "monthly");
   ("payment_method", VNum "1e+21");
   ("customer_info",
    VObj [("fullname", VStr "A"); ("email", VStr "a@b.com")])].

(** A text whose last character is no white space. *)
Definition ends_clean (s : string) : Prop :=
  exists s' z, s = s' ++ String z "" /\ is_space z = false.

Definition sample_contact : object :=
  [("name", VStr "A"); ("email", VStr "a@b.com"); ("message", VStr "hello")].

(** A server whose clock stands at the last valid time value. *)
Definition sample_world_late : World :=
  {| LocalTZA := fun _ _ => 0;
     clock := fun _ => maxTime;
     randomUUID := fun _ => "3b241101-e2bb-4255-8caf-4136c566a962";
     random36 := fun _ => "k3j9x0a1z";
     db_fault := healthy;
     db_query := fun _ _ _ _ rows => rows |}.

End Extra.

(* ================================================================== *)
(** * Theorems *)
(* ================================================================== *)

(** ** Date arithmetic *)

Module JSDateFacts.

Import JSDate.

Lemma DayFromYear_succ y : DayFromYear (y + 1) = DayFromYear y + DaysInYear y.
Proof.
  unfold DayFromYear, DaysInYear.
  destruct (Z.eqb_spec (y mod 4) 0); destruct (Z.eqb_spec (y mod 100) 0);
    destruct (Z.eqb_spec (y mod 400) 0); cbn [negb];
    Z.div_mod_to_equations; lia.
Qed.

Lemma leap_days_range y : leap_days y = 0 \/ leap_days y = 1.
Proof. unfold leap_days. destruct (DaysInYear y =? 366); auto. Qed.

Lemma DaysInYear_leap y : DaysInYear y = 365 + leap_days y.
Proof.
  unfold leap_days, DaysInYear.
  destruct (negb (y mod 4 =? 0)); [reflexivity|].
  destruct (negb (y mod 100 =? 0)); [reflexivity|].
  destruct (negb (y mod 400 =? 0)); reflexivity.
Qed.

(** [year_of_day d] is a year whose days include [d]... *)
Lemma year_of_day_spec d :
  DayFromYear (year_of_day d) <= d < DayFromYear (year_of_day d + 1).
Proof.
  unfold year_of_day.
  set (y := 1970 + 400 * d / 146097).
  destruct (Z.leb_spec (DayFromYear (y + 1)) d).
  - split; [lia|].
    unfold DayFromYear, y in *. Z.div_mod_to_equations. lia.
  - destruct (Z.leb_spec (DayFromYear y) d).
    + lia.
    + split; [|replace (y - 1 + 1) with y by lia; lia].
      unfold DayFromYear, y in *. Z.div_mod_to_equations. lia.
Qed.

Lemma DayFromYear_mono y1 y2 : y1 <= y2 -> DayFromYear y1 <= DayFromYear y2.
Proof.
  intros H.
  assert (G : forall k, 0 <= k -> DayFromYear y1 <= DayFromYear (y1 + k)).
  { intros k Hk. pattern k. apply natlike_ind; [| |exact Hk].
    - rewrite Z.add_0_r. lia.
    - intros x Hx IH. replace (y1 + Z.succ x) with (y1 + x + 1) by lia.
      rewrite DayFromYear_succ. pose proof (DaysInYear_leap (y1 + x)).
      pose proof (leap_days_range (y1 + x)). lia. }
  replace y2 with (y1 + (y2 - y1)) by lia. apply G. lia.
Qed.

(** ... and the only one: it is the largest [y] with [DayFromYear y <= d]. *)
Lemma year_of_day_unique d y :
  DayFromYear y <= d < DayFromYear (y + 1) -> year_of_day d = y.
Proof.
  intros H. pose proof (year_of_day_spec d) as S.
  destruct (Z.lt_trichotomy (year_of_day d) y) as [L | [E | G]]; [|exact E|].
  - pose proof (DayFromYear_mono (year_of_day d + 1) y). lia.
  - pose proof (DayFromYear_mono (y + 1) (year_of_day d)). lia.
Qed.

Lemma YearFromTime_largest t y :
  TimeFromYear y <= t <-> y <= YearFromTime t.
Proof.
  unfold TimeFromYear, YearFromTime, Day, msPerDay.
  pose proof (year_of_day_spec (t / 86400000)) as S.
  split; intros H.
  - destruct (Z_le_gt_dec y (year_of_day (t / 86400000))) as [L | G]; [exact L|].
    pose proof (DayFromYear_mono (year_of_day (t / 86400000) + 1) y).
    Z.div_mod_to_equations. lia.
  - pose proof (DayFromYear_mono y (year_of_day (t / 86400000)) H).
    Z.div_mod_to_equations. lia.
Qed.

Lemma Day_MakeDate D tm :
  0 <= tm < msPerDay -> Day (MakeDate D tm) = D.
Proof.
  unfold Day, MakeDate, msPerDay. intros H. Z.div_mod_to_equations. lia.
Qed.

Lemma TimeWithinDay_MakeDate D tm :
  0 <= tm < msPerDay -> TimeWithinDay (MakeDate D tm) = tm.
Proof.
  unfold TimeWithinDay, MakeDate, msPerDay. intros H.
  Z.div_mod_to_equations. lia.
Qed.

Lemma TimeWithinDay_range t : 0 <= TimeWithinDay t < msPerDay.
Proof. unfold TimeWithinDay, msPerDay. Z.div_mod_to_equations. lia. Qed.

Lemma MakeDate_Day t : MakeDate (Day t) (TimeWithinDay t) = t.
Proof.
  unfold MakeDate, Day, TimeWithinDay, msPerDay. Z.div_mod_to_equations. lia.
Qed.

Lemma DayWithinYear_range t :
  0 <= DayWithinYear t < 365 + InLeapYear t.
Proof.
  unfold DayWithinYear, InLeapYear, YearFromTime.
  pose proof (year_of_day_spec (Day t)) as S.
  rewrite DayFromYear_succ, DaysInYear_leap in S. lia.
Qed.

Lemma month_of_yday_range dwy L : 0 <= month_of_yday dwy L <= 11.
Proof.
  unfold month_of_yday.
  repeat match goal with |- context [?a <? ?b] => destruct (a <? b) end; lia.
Qed.

Lemma MonthFromTime_range t : 0 <= MonthFromTime t <= 11.
Proof. apply month_of_yday_range. Qed.

Ltac month_cases m :=
  assert (m = 0 \/ m = 1 \/ m = 2 \/ m = 3 \/ m = 4 \/ m = 5 \/ m = 6
          \/ m = 7 \/ m = 8 \/ m = 9 \/ m = 10 \/ m = 11) as Hcases by lia;
  repeat (destruct Hcases as [Hcases | Hcases]); subst m.

(** Evaluate [month_start] at a literal month and leap-day count. *)
Ltac calc_month_start :=
  repeat match goal with
         | |- context [month_start ?a ?L] =>
             let v := eval vm_compute in (month_start a L) in
             change (month_start a L) with v
         | H : context [month_start ?a ?L] |- _ =>
             let v := eval vm_compute in (month_start a L) in
             change (month_start a L) with v in H
         end.

Lemma month_span_range y m : 0 <= m <= 11 -> 28 <= month_span y m <= 31.
Proof.
  intros H. unfold month_span.
  destruct (leap_days_range y) as [E | E]; rewrite E;
    month_cases m; calc_month_start; lia.
Qed.

Lemma leap_days_leap_year y : leap_days y = if leap_year y then 1 else 0.
Proof.
  unfold leap_days, DaysInYear, leap_year.
  destruct (Z.eqb_spec (y mod 4) 0); destruct (Z.eqb_spec (y mod 100) 0);
    destruct (Z.eqb_spec (y mod 400) 0); cbn; try reflexivity;
    exfalso; Z.div_mod_to_equations; lia.
Qed.

(** The table of the primitive encodes the lengths of the calendar's
    months. *)
Lemma DaysInMonth_span y m :
  0 <= m <= 11 -> DaysInMonth y m = month_span y m.
Proof.
  intros H. unfold month_span, DaysInMonth.
  rewrite leap_days_leap_year.
  destruct (leap_year y); month_cases m; calc_month_start; reflexivity.
Qed.

Lemma DaysInMonth_range y m : 0 <= m <= 11 -> 28 <= DaysInMonth y m <= 31.
Proof.
  intros H. rewrite DaysInMonth_span by exact H.
  apply month_span_range. exact H.
Qed.

(** Month and day of the month of a day of the year. *)
Lemma month_of_yday_start m d L :
  (L = 0 \/ L = 1) -> 0 <= m <= 11 ->
  1 <= d <= month_start (m + 1) L - month_start m L ->
  month_of_yday (month_start m L + d - 1) L = m.
Proof.
  intros HL Hm Hd. unfold month_of_yday.
  destruct HL; subst L; month_cases m; calc_month_start;
    repeat match goal with
           | |- context [?a <? ?b] => destruct (Z.ltb_spec a b); try lia
           end.
Qed.

Lemma yday_decompose dwy L :
  (L = 0 \/ L = 1) -> 0 <= dwy < 365 + L ->
  1 <= dwy - month_start (month_of_yday dwy L) L + 1
    <= month_start (month_of_yday dwy L + 1) L
       - month_start (month_of_yday dwy L) L.
Proof.
  intros HL H. unfold month_of_yday.
  destruct HL; subst L;
    repeat match goal with
           | |- context [?a <? ?b] =>
               destruct (Z.ltb_spec a b); [calc_month_start; lia|]
           end; calc_month_start; lia.
Qed.

(** Every time has a civil reading with a day its month really has. *)
Lemma DateFromTime_range t :
  1 <= DateFromTime t <= DaysInMonth (YearFromTime t) (MonthFromTime t).
Proof.
  rewrite DaysInMonth_span by apply MonthFromTime_range.
  unfold DateFromTime, month_span, MonthFromTime.
  apply yday_decompose.
  - apply leap_days_range.
  - apply DayWithinYear_range.
Qed.

Lemma Day_MakeDay t :
  MakeDay (YearFromTime t) (MonthFromTime t) (DateFromTime t) = Day t.
Proof.
  pose proof (MonthFromTime_range t) as Hm.
  unfold MakeDay.
  replace (MonthFromTime t / 12) with 0 by (Z.div_mod_to_equations; lia).
  replace (MonthFromTime t mod 12) with (MonthFromTime t)
    by (Z.div_mod_to_equations; lia).
  rewrite Z.add_0_r. unfold DateFromTime, DayWithinYear, InLeapYear. lia.
Qed.

(** [MakeDay] and [MakeDate] invert the civil reading. *)
Lemma civil_of_MakeDate y m d tm :
  0 <= m <= 11 -> 1 <= d <= DaysInMonth y m -> 0 <= tm < msPerDay ->
  civil_of (MakeDate (MakeDay y m d) tm) = Civil y m d tm.
Proof.
  intros Hm Hd Htm. rewrite DaysInMonth_span in Hd by exact Hm.
  pose proof (leap_days_range y) as HL.
  assert (Hy : YearFromTime (MakeDate (MakeDay y m d) tm) = y).
  { unfold YearFromTime. rewrite Day_MakeDate by exact Htm.
    apply year_of_day_unique. rewrite DayFromYear_succ, DaysInYear_leap.
    unfold MakeDay.
    replace (m / 12) with 0 by (Z.div_mod_to_equations; lia).
    replace (m mod 12) with m by (Z.div_mod_to_equations; lia).
    rewrite Z.add_0_r. unfold month_span in Hd.
    destruct HL as [E | E]; rewrite E in *;
      month_cases m; calc_month_start; lia. }
  assert (Hw : DayWithinYear (MakeDate (MakeDay y m d) tm)
               = month_start m (leap_days y) + d - 1).
  { unfold DayWithinYear. rewrite Hy, Day_MakeDate by exact Htm.
    unfold MakeDay.
    replace (m / 12) with 0 by (Z.div_mod_to_equations; lia).
    replace (m mod 12) with m by (Z.div_mod_to_equations; lia).
    rewrite Z.add_0_r. lia. }
  assert (Hmo : MonthFromTime (MakeDate (MakeDay y m d) tm) = m).
  { unfold MonthFromTime, InLeapYear. rewrite Hw, Hy.
    apply month_of_yday_start; assumption. }
  unfold civil_of. rewrite Hy, Hmo, TimeWithinDay_MakeDate by exact Htm.
  f_equal. unfold DateFromTime, InLeapYear. rewrite Hw, Hmo, Hy. lia.
Qed.

(** A time is determined by its civil reading. *)
Lemma civil_of_inj a b : civil_of a = civil_of b -> a = b.
Proof.
  intros H.
  rewrite <- (MakeDate_Day a), <- (MakeDate_Day b).
  rewrite <- (Day_MakeDay a), <- (Day_MakeDay b).
  unfold civil_of in H. injection H as -> -> -> ->. reflexivity.
Qed.

Lemma MakeDay_in_year y m d :
  0 <= m <= 11 ->
  MakeDay y m d = DayFromYear y + month_start m (leap_days y) + d - 1.
Proof.
  intros H. unfold MakeDay.
  replace (m / 12) with 0 by (Z.div_mod_to_equations; lia).
  replace (m mod 12) with m by (Z.div_mod_to_equations; lia).
  rewrite Z.add_0_r. reflexivity.
Qed.

Lemma MakeDay_normalise y m d :
  MakeDay y m d = MakeDay (y + m / 12) (m mod 12) d.
Proof.
  rewrite (MakeDay_in_year (y + m / 12) (m mod 12))
    by (Z.div_mod_to_equations; lia).
  reflexivity.
Qed.

(** The rollover rule of the primitive: [MakeDay] at a day the target
    month does not have lands in the month that follows. *)
Lemma civil_of_MakeDay_roll y m d tm :
  1 <= d <= 31 -> 0 <= tm < msPerDay ->
  civil_of (MakeDate (MakeDay y m d) tm)
  = roll_into (y + m / 12) (m mod 12) d tm.
Proof.
  intros Hd Htm. rewrite MakeDay_normalise.
  set (ym := y + m / 12). set (mn := m mod 12).
  assert (Hmn : 0 <= mn <= 11) by (unfold mn; Z.div_mod_to_equations; lia).
  clearbody ym mn. unfold roll_into.
  pose proof (DaysInMonth_range ym mn Hmn) as Hdim.
  destruct (Z.leb_spec d (DaysInMonth ym mn)) as [Hle | Hgt].
  - apply civil_of_MakeDate; lia.
  - destruct (Z.eqb_spec mn 11) as [E | NE].
    + exfalso. subst mn. rewrite DaysInMonth_span in Hgt by lia.
      unfold month_span in Hgt.
      destruct (leap_days_range ym) as [L | L]; rewrite L in Hgt;
        calc_month_start; lia.
    + assert (Hnext : 0 <= mn + 1 <= 11) by lia.
      pose proof (DaysInMonth_range ym (mn + 1) Hnext).
      replace (MakeDay ym mn d)
        with (MakeDay ym (mn + 1) (d - DaysInMonth ym mn)).
      * apply civil_of_MakeDate; lia.
      * rewrite !MakeDay_in_year by lia.
        rewrite DaysInMonth_span by lia. unfold month_span. lia.
Qed.

Ltac calc_div12 :=
  repeat match goal with
         | |- context [(?a + ?b) / 12] =>
             let v := eval vm_compute in ((a + b) / 12) in
             change ((a + b) / 12) with v
         | |- context [(?a + ?b) mod 12] =>
             let v := eval vm_compute in ((a + b) mod 12) in
             change ((a + b) mod 12) with v
         end.

(** Moving one or two months ahead moves the first of the month by at
    least 28 and at most 62 days. *)
Lemma MakeDay_months_ahead y m k d :
  0 <= m <= 11 -> 1 <= k <= 2 ->
  28 <= MakeDay y (m + k) d - MakeDay y m d <= 62.
Proof.
  intros Hm Hk. rewrite (MakeDay_in_year y m) by exact Hm.
  unfold MakeDay.
  assert (Hc : k = 1 \/ k = 2) by lia.
  destruct (leap_days_range y) as [L | L];
    destruct (leap_days_range (y + 1)) as [L' | L'];
    destruct Hc; subst k; month_cases m; calc_div12;
    rewrite ?Z.add_0_r, ?DayFromYear_succ, ?DaysInYear_leap, ?L, ?L';
    calc_month_start; lia.
Qed.

(** Moving one year ahead moves the day by 365 or 366 days. *)
Lemma MakeDay_year_ahead y m d :
  0 <= m <= 11 ->
  365 <= MakeDay (y + 1) m d - MakeDay y m d <= 366.
Proof.
  intros Hm. rewrite !MakeDay_in_year by exact Hm.
  rewrite DayFromYear_succ, DaysInYear_leap.
  assert (Hex : leap_days y = 0 \/ leap_days (y + 1) = 0).
  { unfold leap_days, DaysInYear.
    destruct (Z.eqb_spec (y mod 4) 0) as [A | A]; cbn [negb]; [|left; reflexivity].
    destruct (Z.eqb_spec ((y + 1) mod 4) 0) as [B | B]; cbn [negb];
      [|right; reflexivity].
    exfalso. Z.div_mod_to_equations. lia. }
  destruct (leap_days_range y) as [L | L];
    destruct (leap_days_range (y + 1)) as [L' | L'];
    rewrite ?L, ?L' in *; try (destruct Hex; discriminate);
    month_cases m; calc_month_start; lia.
Qed.

Lemma later_arith lt t e D0 D1 tm o1 o2 :
  lt = MakeDate D0 tm -> lt = t + o1 -> e = MakeDate D1 tm - o2 ->
  28 <= D1 - D0 ->
  - msPerDay < o1 < msPerDay -> - msPerDay < o2 < msPerDay ->
  t < e.
Proof. unfold MakeDate, msPerDay. lia. Qed.

Section Zone.

Variable tz : Z -> bool -> Z.

(** [d.setMonth(d.getMonth() + k)] adds [k] calendar months to the local
    civil reading of [d]. *)
Lemma setMonth_plus_months t k :
  exists end_local,
    setMonth tz (Some t) (Some (MonthFromTime (LocalTime tz t) + k))
    = TimeClip (UTC tz end_local)
    /\ civil_of end_local = plus_months k (civil_of (LocalTime tz t)).
Proof.
  eexists. split; [reflexivity|].
  pose proof (DateFromTime_range (LocalTime tz t)) as Hd.
  pose proof (DaysInMonth_range (YearFromTime (LocalTime tz t)) _
                (MonthFromTime_range (LocalTime tz t))) as Hdim.
  rewrite civil_of_MakeDay_roll;
    [reflexivity | lia | apply TimeWithinDay_range].
Qed.

(** [d.setFullYear(d.getFullYear() + k)] adds [k] calendar years. *)
Lemma setFullYear_plus_years t k :
  exists end_local,
    setFullYear tz (Some t) (Some (YearFromTime (LocalTime tz t) + k))
    = TimeClip (UTC tz end_local)
    /\ civil_of end_local = plus_years k (civil_of (LocalTime tz t)).
Proof.
  eexists. split; [reflexivity|].
  pose proof (DateFromTime_range (LocalTime tz t)) as Hd.
  pose proof (MonthFromTime_range (LocalTime tz t)) as Hm.
  pose proof (DaysInMonth_range (YearFromTime (LocalTime tz t)) _ Hm) as Hdim.
  rewrite civil_of_MakeDay_roll; [| lia | apply TimeWithinDay_range].
  unfold plus_years, civil_of; cbn [c_year c_month c_day c_time].
  replace (MonthFromTime (LocalTime tz t) / 12) with 0
    by (Z.div_mod_to_equations; lia).
  replace (MonthFromTime (LocalTime tz t) mod 12)
    with (MonthFromTime (LocalTime tz t))
    by (Z.div_mod_to_equations; lia).
  rewrite Z.add_0_r. reflexivity.
Qed.

(** Time-zone offsets stay below one day in magnitude (ECMA-262
    requires it of every implementation). *)
Hypothesis tz_bounded : forall t b, - msPerDay < tz t b < msPerDay.

Lemma setMonth_later t k e :
  1 <= k <= 2 ->
  setMonth tz (Some t) (Some (MonthFromTime (LocalTime tz t) + k)) = Some e ->
  t < e.
Proof.
  intros Hk. unfold setMonth.
  match goal with |- TimeClip (UTC tz ?n) = _ -> _ => set (newDate := n) end.
  assert (Hn : newDate = MakeDate
                 (MakeDay (YearFromTime (LocalTime tz t))
                    (MonthFromTime (LocalTime tz t) + k)
                    (DateFromTime (LocalTime tz t)))
                 (TimeWithinDay (LocalTime tz t))) by reflexivity.
  clearbody newDate. unfold TimeClip.
  destruct (maxTime <? Z.abs (UTC tz newDate)); [discriminate|].
  intros He. injection He as He. subst e.
  pose proof (MakeDay_months_ahead (YearFromTime (LocalTime tz t))
                (MonthFromTime (LocalTime tz t)) k
                (DateFromTime (LocalTime tz t))
                (MonthFromTime_range _) Hk) as G.
  rewrite Day_MakeDay in G.
  eapply later_arith;
    [ symmetry; apply (MakeDate_Day (LocalTime tz t))
    | reflexivity | unfold UTC; rewrite Hn; reflexivity | lia
    | apply tz_bounded | apply tz_bounded ].
Qed.

Lemma setFullYear_later t e :
  setFullYear tz (Some t) (Some (YearFromTime (LocalTime tz t) + 1)) = Some e ->
  t < e.
Proof.
  unfold setFullYear.
  match goal with |- TimeClip (UTC tz ?n) = _ -> _ => set (newDate := n) end.
  assert (Hn : newDate = MakeDate
                 (MakeDay (YearFromTime (LocalTime tz t) + 1)
                    (MonthFromTime (LocalTime tz t))
                    (DateFromTime (LocalTime tz t)))
                 (TimeWithinDay (LocalTime tz t))) by reflexivity.
  clearbody newDate. unfold TimeClip.
  destruct (maxTime <? Z.abs (UTC tz newDate)); [discriminate|].
  intros He. injection He as He. subst e.
  pose proof (MakeDay_year_ahead (YearFromTime (LocalTime tz t))
                (MonthFromTime (LocalTime tz t))
                (DateFromTime (LocalTime tz t))
                (MonthFromTime_range _)) as G.
  rewrite Day_MakeDay in G.
  eapply later_arith;
    [ symmetry; apply (MakeDate_Day (LocalTime tz t))
    | reflexivity | unfold UTC; rewrite Hn; reflexivity | lia
    | apply tz_bounded | apply tz_bounded ].
Qed.

End Zone.

End JSDateFacts.

(** ** The regular-expression matcher *)

Module RegexFacts.

Import JS.

Lemma append_nil_inv s1 s2 : (s1 ++ s2)%string = "" -> s1 = "" /\ s2 = "".
Proof. destruct s1; cbn; [auto | discriminate]. Qed.

Lemma append_cons_inv s1 s2 c s :
  (s1 ++ s2)%string = String c s ->
  (s1 = "" /\ s2 = String c s)
  \/ exists s1', s1 = String c s1' /\ s = (s1' ++ s2)%string.
Proof.
  destruct s1 as [|a s1]; cbn; intros H.
  - left. auto.
  - right. injection H as -> <-. eauto.
Qed.

Lemma nullable_lang r : nullable r = true <-> lang r "".
Proof.
  split.
  - induction r; cbn; intros H; try discriminate.
    + constructor.
    + apply andb_true_iff in H as [H1 H2].
      change "" with ("" ++ "")%string. constructor; auto.
    + apply orb_true_iff in H as [H | H];
        [apply lang_alt_l | apply lang_alt_r]; auto.
    + constructor.
  - intros H. remember "" as s eqn:E.
    induction H; cbn; try discriminate; try reflexivity.
    + apply append_nil_inv in E as [-> ->].
      rewrite IHlang1, IHlang2; reflexivity.
    + rewrite IHlang by exact E. reflexivity.
    + rewrite IHlang by exact E. apply orb_true_r.
Qed.

Lemma deriv_sound c r : forall s, lang (deriv c r) s -> lang r (String c s).
Proof.
  induction r; cbn; intros s H.
  - inversion H.
  - inversion H.
  - destruct (p c) eqn:E; inversion H; subst. constructor. exact E.
  - assert (G : forall w, lang (Cat (deriv c r1) r2) w ->
                          lang (Cat r1 r2) (String c w)).
    { intros w Hw. inversion Hw; subst.
      change (String c (s1 ++ s2)) with (String c s1 ++ s2)%string.
      constructor; auto. }
    destruct (nullable r1) eqn:N.
    + inversion H; subst; [auto|].
      change (String c s) with ("" ++ String c s)%string.
      constructor; [apply nullable_lang; exact N | auto].
    + auto.
  - inversion H; subst; [apply lang_alt_l | apply lang_alt_r]; auto.
  - inversion H; subst.
    change (String c (s1 ++ s2)) with (String c s1 ++ s2)%string.
    constructor; auto.
Qed.

Lemma deriv_complete c r w :
  lang r w -> forall u, w = String c u -> lang (deriv c r) u.
Proof.
  induction 1; intros u E; cbn; try discriminate.
  - injection E as -> <-. rewrite H. constructor.
  - apply append_cons_inv in E as [[-> E] | [s1' [-> ->]]].
    + assert (N : nullable r1 = true) by (apply nullable_lang; assumption).
      rewrite N. apply lang_alt_r. auto.
    + assert (G : lang (Cat (deriv c r1) r2) (s1' ++ s2))
        by (constructor; auto).
      destruct (nullable r1); [apply lang_alt_l|]; exact G.
  - apply lang_alt_l. auto.
  - apply lang_alt_r. auto.
  - apply append_cons_inv in E as [[-> E] | [s1' [-> ->]]].
    + apply (IHlang2 u E).
    + constructor; auto.
Qed.

(** The matcher decides membership in the language of the expression. *)
Lemma matches_lang s : forall r, matches r s = true <-> lang r s.
Proof.
  induction s as [|c s IH]; intros r; cbn.
  - apply nullable_lang.
  - rewrite IH. split.
    + apply deriv_sound.
    + intros H. apply (deriv_complete c r _ H). reflexivity.
Qed.

Lemma lang_star_class p s :
  lang (Star (Class p)) s <->
  forall c, In c (list_ascii_of_string s) -> p c = true.
Proof.
  split.
  - intros H. remember (Star (Class p)) as r eqn:E.
    induction H; try discriminate.
    + intros c [].
    + injection E as ->. inversion H; subst. cbn.
      intros c' [<- | Hin]; [assumption | auto].
  - induction s as [|a s IH]; intros H.
    + constructor.
    + change (String a s) with (String a "" ++ s)%string.
      constructor.
      * constructor. apply H. left. reflexivity.
      * apply IH. intros c Hc. apply H. right. exact Hc.
Qed.

Lemma lang_plus_class p s :
  lang (Plus (Class p)) s <->
  s <> "" /\ forall c, In c (list_ascii_of_string s) -> p c = true.
Proof.
  unfold Plus. split.
  - intros H. inversion H as [| |? ? s1 s2 H1 H2| | | |]; subst.
    inversion H1; subst. cbn. split; [discriminate|].
    intros c' [<- | Hin]; [assumption|].
    apply (proj1 (lang_star_class p s2) H2). exact Hin.
  - intros [N H]. destruct s as [|a s]; [congruence|].
    change (String a s) with (String a "" ++ s)%string.
    constructor.
    + constructor. apply H. left. reflexivity.
    + apply lang_star_class. intros c Hc. apply H. right. exact Hc.
Qed.

Lemma lang_char x s : lang (Class (is_char x)) s <-> s = String x "".
Proof.
  split.
  - intros H. inversion H; subst. unfold is_char in *.
    apply Ascii.eqb_eq in H1. subst. reflexivity.
  - intros ->. constructor. unfold is_char. apply Ascii.eqb_refl.
Qed.

(** The expression of the contact form accepts exactly the addresses of
    the shape the specification describes. *)
Lemma emailRegex_simple_email s :
  matches emailRegex s = true <-> simple_email s.
Proof.
  rewrite matches_lang. unfold emailRegex, simple_email, clean. split.
  - intros H.
    inversion H as [| |? ? l s1 Hl H1| | | |]; subst.
    inversion H1 as [| |? ? a s2 Ha H2| | | |]; subst.
    inversion H2 as [| |? ? d s3 Hd H3| | | |]; subst.
    inversion H3 as [| |? ? o t Ho Ht| | | |]; subst.
    apply lang_char in Ha, Ho. subst.
    apply lang_plus_class in Hl, Hd, Ht.
    exists l, d, t. auto.
  - intros (l & d & t & -> & Hl & Hd & Ht).
    constructor; [apply lang_plus_class; exact Hl|].
    constructor; [apply lang_char; reflexivity|].
    constructor; [apply lang_plus_class; exact Hd|].
    constructor; [apply lang_char; reflexivity|].
    apply lang_plus_class; exact Ht.
Qed.

End RegexFacts.

(** ** The handlers *)

Module ServerFacts.

Import JSDate JS Server Spec JSDateFacts RegexFacts.

Lemma skipn_length_app {A} (l l' : list A) :
  skipn (List.length l) (l ++ l') = l'.
Proof. induction l; cbn; auto. Qed.

Lemma skipn_length_same {A} (l : list A) : skipn (List.length l) l = [].
Proof. induction l; cbn; auto. Qed.

Lemma length_snoc {A} (l : list A) (x : A) :
  List.length (l ++ [x]) = S (List.length l).
Proof. induction l; cbn; auto. Qed.

Lemma truthy_not_nullish v : truthy v = true -> nullish v = false.
Proof. destruct v; cbn; congruence. Qed.

Lemma field_opt_prop v k : opt_prop v k = field v k.
Proof. destruct v; reflexivity. Qed.

Lemma truthy_opt_prop_not_nullish v k :
  truthy (opt_prop v k) = true -> nullish v = false.
Proof. destruct v; cbn; congruence. Qed.

Lemma strict_eq_str_true v s : strict_eq_str v s = true <-> v = VStr s.
Proof.
  destruct v; cbn; try (split; congruence).
  rewrite String.eqb_eq. split; congruence.
Qed.

Lemma not_recognised v :
  ~ recognised v ->
  strict_eq_str v "monthly" = false /\ strict_eq_str v "2months" = false
  /\ strict_eq_str v "annual" = false.
Proof.
  unfold recognised. intros H.
  repeat split; apply not_true_is_false; rewrite strict_eq_str_true; tauto.
Qed.

Lemma has_text_Some v :
  has_text v = true -> exists text, to_string v = Some text.
Proof.
  unfold has_text. destruct (to_string v) as [text|]; [|discriminate].
  exists text. reflexivity.
Qed.

Lemma has_text_None v : has_text v = false -> to_string v = None.
Proof. unfold has_text. destruct (to_string v); congruence. Qed.

Lemma note_fields_A_text req :
  forallb has_text (note_fields_A req) = true ->
  exists email name phone plan payment,
    to_string (get_prop (lookup "customer_info" req) "email") = Some email
    /\ to_string (get_prop (lookup "customer_info" req) "fullname")
       = Some name
    /\ to_string (or_else (get_prop (lookup "customer_info" req) "phone")
                    (VStr "N/A")) = Some phone
    /\ to_string (lookup "plan_id" req) = Some plan
    /\ to_string (lookup "payment_method" req) = Some payment.
Proof.
  unfold note_fields_A. cbn [forallb]. rewrite !andb_true_iff.
  intros (H1 & H2 & H3 & H4 & H5 & _).
  apply has_text_Some in H1 as [t1 H1]. apply has_text_Some in H2 as [t2 H2].
  apply has_text_Some in H3 as [t3 H3]. apply has_text_Some in H4 as [t4 H4].
  apply has_text_Some in H5 as [t5 H5].
  exists t1, t2, t3, t4, t5. auto.
Qed.

Lemma note_fields_B_text req :
  forallb has_text (note_fields_B req) = true ->
  exists name email phone plan,
    to_string (get_prop (lookup "customer_info" req) "fullname") = Some name
    /\ to_string (get_prop (lookup "customer_info" req) "email")
       = Some email
    /\ to_string (or_else (get_prop (lookup "customer_info" req) "phone")
                    (VStr "N/A")) = Some phone
    /\ to_string (lookup "plan_id" req) = Some plan.
Proof.
  unfold note_fields_B. cbn [forallb]. rewrite !andb_true_iff.
  intros (H1 & H2 & H3 & H4 & _).
  apply has_text_Some in H1 as [t1 H1]. apply has_text_Some in H2 as [t2 H2].
  apply has_text_Some in H3 as [t3 H3]. apply has_text_Some in H4 as [t4 H4].
  exists t1, t2, t3, t4. auto.
Qed.

Lemma note_fields_contact_text req :
  forallb has_text (note_fields_contact req) = true ->
  exists name email message,
    to_string (lookup "name" req) = Some name
    /\ to_string (lookup "email" req) = Some email
    /\ to_string (lookup "message" req) = Some message.
Proof.
  unfold note_fields_contact. cbn [forallb]. rewrite !andb_true_iff.
  intros (H1 & H2 & H3 & _).
  apply has_text_Some in H1 as [t1 H1]. apply has_text_Some in H2 as [t2 H2].
  apply has_text_Some in H3 as [t3 H3].
  exists t1, t2, t3. auto.
Qed.

(** The expression of the contact form accepts a value exactly when the
    value has a text of the shape local-part [@] domain [.] tld. *)
Lemma regex_test_simple_email v :
  regex_test emailRegex v = Some true
  <-> exists text, to_string v = Some text /\ simple_email text.
Proof.
  unfold regex_test. destruct (to_string v) as [text|].
  - split.
    + intros [= R]. exists text. split; [reflexivity|].
      apply emailRegex_simple_email. exact R.
    + intros (t & [= <-] & E). f_equal. apply emailRegex_simple_email.
      exact E.
  - split; [discriminate | intros (t & [=] & _)].
Qed.

Lemma complete_contact_fields req :
  complete_contact req = true ->
  truthy (lookup "name" req) = true /\ truthy (lookup "email" req) = true
  /\ truthy (lookup "message" req) = true.
Proof.
  unfold complete_contact. intros C.
  apply andb_true_iff in C as [C Hm]. apply andb_true_iff in C as [Hn He].
  auto.
Qed.

(** One step of a handler: unfold the monad and the primitives, leaving
    the values of the request, the dates and the world untouched. *)
Ltac run :=
  cbv beta iota zeta delta
    [bind ret throw try_catch new_Date Date_now toISOString
     crypto_randomUUID Math_random_token console_error db_insert db_select
     record_call member json status_json str error_list negb orb andb
     ToString RegExp_test regex_test];
  cbn [fst snd db db_calls clock_reads uuid_draws random_draws console].

(** Case analysis on what the database does at its next call, unless the
    context says it. *)
Ltac db_case :=
  match goal with
  | H : db_fault ?W ?n = _ |- context [db_fault ?W ?n] => rewrite H
  | |- context [db_fault ?W ?n] =>
      let F := fresh "F" in destruct (db_fault W n) eqn:F
  end.

(** Case analysis on whether the next value converted has a text, and on
    whether the expression matches it. *)
Ltac text_case :=
  match goal with
  | H : to_string ?v = _ |- context [to_string ?v] => rewrite H
  | |- context [to_string ?v] =>
      let T := fresh "T" in destruct (to_string v) eqn:T
  end.

Ltac regex_case :=
  match goal with
  | H : matches ?r ?t = _ |- context [matches ?r ?t] => rewrite H
  | |- context [matches ?r ?t] =>
      let R := fresh "R" in destruct (matches r t) eqn:R
  end.

(** Go on to the end of a handler, splitting at each of these points. *)
Ltac go :=
  repeat (first [db_case | text_case | regex_case];
          run; rewrite ?length_snoc; run).

(** Run a handler from its start to its end. *)
Ltac exec := run; go.

(** Read off the rows a finished run has added. *)
Ltac added :=
  unfold created_rows, calls_made;
  cbn [fst snd db db_calls clock_reads uuid_draws random_draws console];
  rewrite <- ?app_assoc;
  rewrite ?skipn_length_app, ?skipn_length_same;
  cbn [app In].

(** *** The term of a subscription *)

Section Term.

Variable W : World.

(** The three plans add one month, two months and one year to the
    local civil reading of the start. *)
Lemma term_calendar plan rule now :
  calendar_rule plan = Some rule ->
  exists end_local,
    civil_of end_local = rule (civil_of (LocalTime (LocalTZA W) now))
    /\ IndexJs.term W (VStr plan) (Some now)
       = TimeClip (UTC (LocalTZA W) end_local)
    /\ Part000.term W (VStr plan) (Some now)
       = Some (TimeClip (UTC (LocalTZA W) end_local)).
Proof.
  unfold calendar_rule, IndexJs.term, Part000.term, strict_eq_str.
  unfold add_one_month, add_two_months, add_one_year, getMonth,
    getFullYear, plus_one, plus_two.
  destruct (String.eqb plan "monthly").
  { intros [= <-].
    destruct (setMonth_plus_months (LocalTZA W) now 1) as (x & E & C).
    exists x. rewrite E. auto. }
  destruct (String.eqb plan "2months").
  { intros [= <-].
    destruct (setMonth_plus_months (LocalTZA W) now 2) as (x & E & C).
    exists x. rewrite E. auto. }
  destruct (String.eqb plan "annual"); [|discriminate].
  intros [= <-].
  destruct (setFullYear_plus_years (LocalTZA W) now 1) as (x & E & C).
  exists x. rewrite E. auto.
Qed.

Lemma term_A_fallback plan_id d :
  ~ recognised plan_id -> IndexJs.term W plan_id d = add_one_month W d.
Proof.
  intros H. apply not_recognised in H as (H1 & H2 & H3).
  unfold IndexJs.term. rewrite H1, H2, H3. reflexivity.
Qed.

Lemma term_B_unknown plan_id d :
  ~ recognised plan_id -> Part000.term W plan_id d = None.
Proof.
  intros H. apply not_recognised in H as (H1 & H2 & H3).
  unfold Part000.term. rewrite H1, H2, H3. reflexivity.
Qed.

Lemma term_B_is_term_A plan_id d e :
  Part000.term W plan_id d = Some e -> IndexJs.term W plan_id d = e.
Proof.
  unfold Part000.term, IndexJs.term.
  destruct (strict_eq_str plan_id "monthly"); [congruence|].
  destruct (strict_eq_str plan_id "2months"); [congruence|].
  destruct (strict_eq_str plan_id "annual"); [congruence|discriminate].
Qed.

Lemma term_A_monthly d :
  IndexJs.term W (VStr "monthly") d = add_one_month W d.
Proof.
  unfold IndexJs.term.
  change (strict_eq_str (VStr "monthly") "monthly") with true.
  reflexivity.
Qed.

Lemma term_A_2months d :
  IndexJs.term W (VStr "2months") d = add_two_months W d.
Proof.
  unfold IndexJs.term.
  change (strict_eq_str (VStr "2months") "monthly") with false.
  change (strict_eq_str (VStr "2months") "2months") with true.
  reflexivity.
Qed.

Lemma term_A_annual d :
  IndexJs.term W (VStr "annual") d = add_one_year W d.
Proof.
  unfold IndexJs.term.
  change (strict_eq_str (VStr "annual") "monthly") with false.
  change (strict_eq_str (VStr "annual") "2months") with false.
  change (strict_eq_str (VStr "annual") "annual") with true.
  reflexivity.
Qed.

Lemma add_one_month_Some t :
  add_one_month W (Some t)
  = setMonth (LocalTZA W) (Some t)
      (Some (MonthFromTime (LocalTime (LocalTZA W) t) + 1)).
Proof. unfold add_one_month, getMonth, plus_one. reflexivity. Qed.

Lemma add_two_months_Some t :
  add_two_months W (Some t)
  = setMonth (LocalTZA W) (Some t)
      (Some (MonthFromTime (LocalTime (LocalTZA W) t) + 2)).
Proof. unfold add_two_months, getMonth, plus_two. reflexivity. Qed.

Lemma add_one_year_Some t :
  add_one_year W (Some t)
  = setFullYear (LocalTZA W) (Some t)
      (Some (YearFromTime (LocalTime (LocalTZA W) t) + 1)).
Proof. unfold add_one_year, getFullYear, plus_one. reflexivity. Qed.

(** The term variant A computes is the function of the zone, the plan
    and the start. *)
Lemma term_A_in_zone plan_id t :
  IndexJs.term W plan_id (Some t) = term_in_zone (LocalTZA W) plan_id t.
Proof.
  destruct (strict_eq_str plan_id "monthly") eqn:A.
  { apply strict_eq_str_true in A. subst plan_id.
    rewrite term_A_monthly, add_one_month_Some. unfold term_in_zone.
    change (strict_eq_str (VStr "monthly") "2months") with false.
    change (strict_eq_str (VStr "monthly") "annual") with false.
    reflexivity. }
  destruct (strict_eq_str plan_id "2months") eqn:B.
  { apply strict_eq_str_true in B. subst plan_id.
    rewrite term_A_2months, add_two_months_Some. unfold term_in_zone.
    change (strict_eq_str (VStr "2months") "2months") with true.
    reflexivity. }
  destruct (strict_eq_str plan_id "annual") eqn:C.
  { apply strict_eq_str_true in C. subst plan_id.
    rewrite term_A_annual, add_one_year_Some. unfold term_in_zone.
    change (strict_eq_str (VStr "annual") "2months") with false.
    change (strict_eq_str (VStr "annual") "annual") with true.
    reflexivity. }
  unfold IndexJs.term. rewrite A, B, C, add_one_month_Some.
  unfold term_in_zone. rewrite B, C. reflexivity.
Qed.

Hypothesis tz_bounded :
  forall t b, - msPerDay < LocalTZA W t b < msPerDay.

Lemma term_A_later plan_id t e :
  IndexJs.term W plan_id (Some t) = Some e -> t < e.
Proof.
  unfold IndexJs.term, add_one_month, add_two_months, add_one_year,
    getMonth, getFullYear, plus_one, plus_two.
  destruct (strict_eq_str plan_id "monthly");
    [apply setMonth_later; [exact tz_bounded | lia]|].
  destruct (strict_eq_str plan_id "2months");
    [apply setMonth_later; [exact tz_bounded | lia]|].
  destruct (strict_eq_str plan_id "annual");
    [apply setFullYear_later; exact tz_bounded|].
  apply setMonth_later; [exact tz_bounded | lia].
Qed.

Lemma term_B_later plan_id t e :
  Part000.term W plan_id (Some t) = Some (Some e) -> t < e.
Proof.
  intros H. apply term_B_is_term_A in H. exact (term_A_later _ _ _ H).
Qed.

End Term.

(** *** What a subscribe request stores *)

Section Subscribe.

Variables (W : World) (s : State) (req : object).

Let now := clock W (clock_reads s).
Let plan_id := lookup "plan_id" req.

(** Variant A: every subscription it adds is the one of this request,
    under the [user_id] found in the request. *)
Lemma subscribe_A_created row :
  In ("subscriptions", row)
     (created_rows s (snd (IndexJs.subscribe W req s))) ->
  exists e,
    IndexJs.term W plan_id (Some now) = Some e
    /\ row = Subscription (lookup "user_id" req) plan_id now e.
Proof.
  subst now plan_id. unfold IndexJs.subscribe. run.
  destruct (truthy (lookup "customer_info" req)) eqn:C; run;
    [|added; intros []].
  rewrite (truthy_not_nullish _ C).
  destruct (IndexJs.term W (lookup "plan_id" req)
              (Some (clock W (clock_reads s)))) as [e|] eqn:T; run;
    [|added; intros []].
  go; added;
    intros H; repeat (destruct H as [H | H]); try contradiction;
    try discriminate H; injection H as <-; exists e; auto.
Qed.

(** Variant A: past the guard on [customer_info], the first call on the
    database client inserts the subscription, and a healthy database
    keeps it. *)
Lemma subscribe_A_calls e :
  truthy (lookup "customer_info" req) = true ->
  IndexJs.term W plan_id (Some now) = Some e ->
  let row := Subscription (lookup "user_id" req) plan_id now e in
  (exists rest,
     calls_made s (snd (IndexJs.subscribe W req s))
     = Insert "subscriptions" row :: rest)
  /\ (db_fault W (List.length (db_calls s)) = Healthy ->
      In ("subscriptions", row)
         (created_rows s (snd (IndexJs.subscribe W req s)))).
Proof.
  subst now plan_id. intros C T. unfold IndexJs.subscribe. run.
  rewrite C. run. rewrite T. run. rewrite (truthy_not_nullish _ C).
  go; added;
    (split; [eexists; reflexivity | intros; try discriminate; auto]).
Qed.

(** Variant B: every subscription it adds is the one of this request,
    under an identifier drawn on the server. *)
Lemma subscribe_B_created row :
  In ("subscriptions", row)
     (created_rows s (snd (Part000.subscribe W req s))) ->
  exists e,
    Part000.term W plan_id (Some now) = Some (Some e)
    /\ row = Subscription (VStr (randomUUID W (uuid_draws s)))
               plan_id now e.
Proof.
  subst now plan_id. unfold Part000.subscribe. run.
  destruct (truthy (lookup "plan_id" req)); run; [|added; intros []].
  destruct (truthy (opt_prop (lookup "customer_info" req) "fullname"))
    eqn:C; run; [|added; intros []].
  destruct (truthy (opt_prop (lookup "customer_info" req) "email"));
    run; [|added; intros []].
  rewrite (truthy_opt_prop_not_nullish _ _ C).
  destruct (Part000.term W (lookup "plan_id" req)
              (Some (clock W (clock_reads s)))) as [[e|]|] eqn:T; run;
    try (added; intros []).
  go; added;
    intros H; repeat (destruct H as [H | H]); try contradiction;
    try discriminate H; injection H as <-; exists e; auto.
Qed.

Lemma complete_subscribe_fields :
  complete_subscribe req = true ->
  truthy (lookup "plan_id" req) = true
  /\ truthy (opt_prop (lookup "customer_info" req) "fullname") = true
  /\ truthy (opt_prop (lookup "customer_info" req) "email") = true.
Proof.
  unfold complete_subscribe. rewrite <- !field_opt_prop.
  intros H. apply andb_true_iff in H as [H H3].
  apply andb_true_iff in H as [H1 H2]. auto.
Qed.

(** Variant B: for a complete request with a plan of the set, the first
    call on the database client inserts the subscription, and a healthy
    database keeps it. *)
Lemma subscribe_B_calls e :
  complete_subscribe req = true ->
  Part000.term W plan_id (Some now) = Some (Some e) ->
  let row := Subscription (VStr (randomUUID W (uuid_draws s)))
               plan_id now e in
  (exists rest,
     calls_made s (snd (Part000.subscribe W req s))
     = Insert "subscriptions" row :: rest)
  /\ (db_fault W (List.length (db_calls s)) = Healthy ->
      In ("subscriptions", row)
         (created_rows s (snd (Part000.subscribe W req s)))).
Proof.
  subst now plan_id. intros C T.
  apply complete_subscribe_fields in C as (C1 & C2 & C3).
  unfold Part000.subscribe. run.
  rewrite C1, C2, C3. run. rewrite T. run.
  rewrite (truthy_opt_prop_not_nullish _ _ C2).
  go; added;
    (split; [eexists; reflexivity | intros; try discriminate; auto]).
Qed.

(** Variant A answers 200 with its own body, and only then. *)
Lemma subscribe_A_ok_body resp :
  fst (IndexJs.subscribe W req s) = Ok resp -> status resp = 200 ->
  body resp = VObj [("success", VBool true); ("saved_to_db", VBool true)].
Proof.
  unfold IndexJs.subscribe. run.
  destruct (truthy (lookup "customer_info" req)) eqn:C; run;
    [|intros [= <-]; discriminate].
  rewrite (truthy_not_nullish _ C).
  destruct (IndexJs.term W (lookup "plan_id" req)
              (Some (clock W (clock_reads s)))) as [e|]; run;
    [|intros [= <-]; discriminate].
  go;
    intros [= <-]; try discriminate; reflexivity.
Qed.

(** Variant A on a healthy database, for a request whose fields can be
    written into the text of the message. *)
Lemma subscribe_A_healthy e :
  truthy (lookup "customer_info" req) = true ->
  IndexJs.term W plan_id (Some now) = Some e ->
  forallb has_text (note_fields_A req) = true ->
  db_fault W (List.length (db_calls s)) = Healthy ->
  db_fault W (S (List.length (db_calls s))) = Healthy ->
  fst (IndexJs.subscribe W req s)
  = Ok (json (VObj [("success", VBool true); ("saved_to_db", VBool true)])).
Proof.
  subst now plan_id. intros C T N F1 F2.
  apply note_fields_A_text in N
    as (t1 & t2 & t3 & t4 & t5 & N1 & N2 & N3 & N4 & N5).
  unfold IndexJs.subscribe. run.
  rewrite C. run. rewrite T. run. rewrite (truthy_not_nullish _ C).
  go. reflexivity.
Qed.

(** Past its guard, variant A answers 200 or 500, never 400. *)
Lemma subscribe_A_status :
  truthy (lookup "customer_info" req) = true ->
  status_of_first (IndexJs.subscribe W req s) = Some 200
  \/ status_of_first (IndexJs.subscribe W req s) = Some 500.
Proof.
  intros C. unfold status_of_first, IndexJs.subscribe. run.
  rewrite C. run. rewrite (truthy_not_nullish _ C).
  destruct (IndexJs.term W (lookup "plan_id" req)
              (Some (clock W (clock_reads s)))) as [e|]; run;
    [|right; reflexivity].
  go;
    (left; reflexivity) || (right; reflexivity).
Qed.

(** Variant B answers 200 with the plan and the term it stored. *)
Lemma subscribe_B_ok_body resp :
  fst (Part000.subscribe W req s) = Ok resp -> status resp = 200 ->
  exists e,
    Part000.term W plan_id (Some now) = Some (Some e)
    /\ body resp = subscribed_body plan_id now e.
Proof.
  subst now plan_id. unfold Part000.subscribe. run.
  destruct (truthy (lookup "plan_id" req)); run;
    [|intros [= <-]; discriminate].
  destruct (truthy (opt_prop (lookup "customer_info" req) "fullname"))
    eqn:C; run; [|intros [= <-]; discriminate].
  destruct (truthy (opt_prop (lookup "customer_info" req) "email"));
    run; [|intros [= <-]; discriminate].
  rewrite (truthy_opt_prop_not_nullish _ _ C).
  destruct (Part000.term W (lookup "plan_id" req)
              (Some (clock W (clock_reads s)))) as [[e|]|] eqn:T; run;
    try (intros [= <-]; discriminate).
  go;
    intros [= <-]; try discriminate. intros _. exists e. auto.
Qed.

(** Variant B turns away every plan outside the set before it touches
    the database. *)
Lemma subscribe_B_unknown_plan :
  ~ recognised plan_id ->
  exists resp,
    fst (Part000.subscribe W req s) = Ok resp /\ status resp = 400
    /\ calls_made s (snd (Part000.subscribe W req s)) = []
    /\ db (snd (Part000.subscribe W req s)) = db s.
Proof.
  subst plan_id. intros U. unfold Part000.subscribe. run.
  destruct (truthy (lookup "plan_id" req)); run;
    [|eexists; added; repeat split].
  destruct (truthy (opt_prop (lookup "customer_info" req) "fullname"));
    run; [|eexists; added; repeat split].
  destruct (truthy (opt_prop (lookup "customer_info" req) "email"));
    run; [|eexists; added; repeat split].
  rewrite (term_B_unknown W _ _ U). eexists; added; repeat split.
Qed.

(** Variant B never stores the message of a subscription without the
    subscription. *)
Lemma subscribe_B_message_follows m :
  In ("messages", m) (created_rows s (snd (Part000.subscribe W req s))) ->
  exists row,
    In ("subscriptions", row)
       (created_rows s (snd (Part000.subscribe W req s))).
Proof.
  unfold Part000.subscribe. run.
  destruct (truthy (lookup "plan_id" req)); run; [|added; intros []].
  destruct (truthy (opt_prop (lookup "customer_info" req) "fullname"))
    eqn:C; run; [|added; intros []].
  destruct (truthy (opt_prop (lookup "customer_info" req) "email"));
    run; [|added; intros []].
  rewrite (truthy_opt_prop_not_nullish _ _ C).
  destruct (Part000.term W (lookup "plan_id" req)
              (Some (clock W (clock_reads s)))) as [[e|]|]; run;
    try (added; intros []).
  go; added;
    intros H; repeat (destruct H as [H | H]); try contradiction;
    try discriminate H; eexists; left; reflexivity.
Qed.

End Subscribe.

(** *** Health *)

(** C10.  [GET /health] makes no call on the database client and answers
    200 with status OK and the time on the server's clock, whatever the
    database would do and however the server is configured; both variants
    agree. *)
Theorem health_needs_no_database (W : World) (s : State) :
  let answer :=
    json (VObj [("status", VStr "OK");
                ("server_time", VStr (iso_string (clock W (clock_reads s))))])
  in
  fst (IndexJs.health W s) = Ok answer
  /\ fst (Part000.health W s) = Ok answer
  /\ calls_made s (snd (IndexJs.health W s)) = []
  /\ calls_made s (snd (Part000.health W s)) = []
  /\ db (snd (IndexJs.health W s)) = db s
  /\ db (snd (Part000.health W s)) = db s.
Proof.
  unfold IndexJs.health, Part000.health, calls_made. run.
  repeat split; apply skipn_length_same.
Qed.

(** *** Validation of a subscribe request *)

(** C3, as the code has it.  Variant B rejects every subscribe request
    that lacks a non-empty [plan_id], or a [customer_info] with non-empty
    [fullname] and [email], with status 400 and without a call on the
    database client.  Variant A rejects, in the same way, exactly the
    requests whose [customer_info] is missing. *)
Theorem subscribe_rejects_incomplete (W : World) (s : State) (req : object) :
  (complete_subscribe req = false ->
   fst (Part000.subscribe W req s)
   = Ok (status_json 400 (VObj [("success", VBool false);
                                ("error", VStr "Missing required fields")]))
   /\ calls_made s (snd (Part000.subscribe W req s)) = []
   /\ db (snd (Part000.subscribe W req s)) = db s)
  /\ (truthy (lookup "customer_info" req) = false ->
      fst (IndexJs.subscribe W req s)
      = Ok (status_json 400 (VObj [("error", VStr "Customer info missing")]))
      /\ calls_made s (snd (IndexJs.subscribe W req s)) = []
      /\ db (snd (IndexJs.subscribe W req s)) = db s)
  /\ (truthy (lookup "customer_info" req) = true ->
      status_of_first (IndexJs.subscribe W req s) <> Some 400).
Proof.
  split; [|split]; intros H;
    [| | destruct (subscribe_A_status W s req H) as [E | E]; rewrite E;
         discriminate].
  - unfold complete_subscribe in H. rewrite <- !field_opt_prop in H.
    unfold Part000.subscribe, calls_made. run.
    assert (G : negb (truthy (lookup "plan_id" req))
                || negb (truthy (opt_prop (lookup "customer_info" req)
                                   "fullname"))
                || negb (truthy (opt_prop (lookup "customer_info" req)
                                   "email")) = true).
    { destruct (truthy (lookup "plan_id" req));
        destruct (truthy (opt_prop (lookup "customer_info" req) "fullname"));
        destruct (truthy (opt_prop (lookup "customer_info" req) "email"));
        cbn in *; congruence. }
    cbv beta iota delta [negb orb] in G. rewrite G.
    repeat split. apply skipn_length_same.
  - unfold IndexJs.subscribe, calls_made. run. rewrite H.
    repeat split. apply skipn_length_same.
Qed.

(** The empty request is turned away by both variants. *)
Lemma subscribe_rejects_incomplete_witness :
  complete_subscribe [] = false
  /\ truthy (lookup "customer_info" []) = false
  /\ status_of_first (Part000.subscribe (sample_world healthy) []
                        (initial_state [])) = Some 400
  /\ status_of_first (IndexJs.subscribe (sample_world healthy) []
                        (initial_state [])) = Some 400.
Proof.
  destruct (subscribe_rejects_incomplete (sample_world healthy)
              (initial_state []) []) as (HB & HA & _).
  destruct (HB eq_refl) as [EB _]. destruct (HA eq_refl) as [EA _].
  unfold status_of_first. rewrite EB, EA. repeat split.
Defined.

(** C3 as stated fails on variant A: a request with neither [plan_id] nor
    [fullname] nor [email] is answered 200 after two calls on the
    database client. *)
Lemma subscribe_A_accepts_incomplete :
  let req := [("customer_info", VObj [])] in
  let out := IndexJs.subscribe (sample_world healthy) req (initial_state []) in
  complete_subscribe req = false
  /\ status_of_first out = Some 200
  /\ List.length (calls_made (initial_state []) (snd out)) = 2%nat
  /\ List.length (db (snd out)) = 2%nat.
Proof. vm_compute. repeat split. Qed.

(** *** The contact form *)




(** *** Subscriptions *)

(** C1.  For a subscribe request whose [plan_id] is "monthly", "2months"
    or "annual", the term both variants compute starts at the reading of
    the clock and ends one calendar month, two calendar months or one
    calendar year later in the server's civil time, a day the target
    month lacks rolling into the next month; whenever that end is a valid
    date, the subscription sent to the database carries exactly these two
    dates. *)
Theorem subscription_term_by_plan
    (W : World) (s : State) (req : object) (plan : string)
    (rule : civil -> civil) :
  lookup "plan_id" req = VStr plan ->
  calendar_rule plan = Some rule ->
  let now := clock W (clock_reads s) in
  exists end_local,
    civil_of end_local = rule (civil_of (LocalTime (LocalTZA W) now))
    /\ IndexJs.term W (VStr plan) (Some now)
       = TimeClip (UTC (LocalTZA W) end_local)
    /\ Part000.term W (VStr plan) (Some now)
       = Some (TimeClip (UTC (LocalTZA W) end_local))
    /\ forall e,
         TimeClip (UTC (LocalTZA W) end_local) = Some e ->
         (truthy (lookup "customer_info" req) = true ->
          exists rest,
            calls_made s (snd (IndexJs.subscribe W req s))
            = Insert "subscriptions"
                (Subscription (lookup "user_id" req) (VStr plan) now e)
              :: rest)
         /\ (complete_subscribe req = true ->
             exists rest,
               calls_made s (snd (Part000.subscribe W req s))
               = Insert "subscriptions"
                   (Subscription (VStr (randomUUID W (uuid_draws s)))
                      (VStr plan) now e)
                 :: rest).
Proof.
  intros P R now.
  destruct (term_calendar W plan rule now R) as (x & C & TA & TB).
  exists x. split; [exact C|]. split; [exact TA|]. split; [exact TB|].
  intros e E. split.
  - intros G.
    assert (T : IndexJs.term W (lookup "plan_id" req) (Some now) = Some e)
      by (rewrite P, TA; assumption).
    destruct (subscribe_A_calls W s req e G T) as [H _].
    rewrite P in H. exact H.
  - intros G.
    assert (T : Part000.term W (lookup "plan_id" req) (Some now)
                = Some (Some e)) by (rewrite P, TB, E; reflexivity).
    destruct (subscribe_B_calls W s req e G T) as [H _].
    rewrite P in H. exact H.
Qed.

(** A monthly plan from midnight of 2024-01-31, on a server on UTC, ends
    on the civil date 2024-03-02 at midnight. *)
Lemma subscription_term_by_plan_witness :
  let W := sample_world healthy in
  let s := initial_state [] in
  exists end_local,
    civil_of end_local = Civil 2024 2 2 0
    /\ IndexJs.term W (VStr "monthly") (Some 1706659200000)
       = TimeClip (UTC (LocalTZA W) end_local)
    /\ Part000.term W (VStr "monthly") (Some 1706659200000)
       = Some (TimeClip (UTC (LocalTZA W) end_local)).
Proof.
  destruct (subscription_term_by_plan (sample_world healthy)
              (initial_state []) sample_subscribe "monthly" (plus_months 1)
              eq_refl eq_refl) as (x & C & TA & TB & _).
  exists x. repeat split; assumption.
Defined.

(** On 2024-01-31 a monthly subscription ends on 2024-03-02: February has
    no 31st, and the two days past its 29th roll into March. *)
Example monthly_from_january_31 :
  IndexJs.term (sample_world healthy) (VStr "monthly") (Some 1706659200000)
  = Some 1709337600000
  /\ iso_string 1706659200000 = "2024-01-31T00:00:00.000Z"
  /\ iso_string 1709337600000 = "2024-03-02T00:00:00.000Z".
Proof. vm_compute. repeat split. Qed.

(** A leap day plus one year: 2025 has no February 29th, the term ends on
    March 1st. *)
Example annual_from_february_29 :
  Part000.term (sample_world healthy) (VStr "annual") (Some 1709210096789)
  = Some (Some 1740832496789)
  /\ iso_string 1709210096789 = "2024-02-29T12:34:56.789Z"
  /\ iso_string 1740832496789 = "2025-03-01T12:34:56.789Z".
Proof. vm_compute. repeat split. Qed.

(** The month is added on the server's calendar: one hour east of UTC,
    a start at 23:30 UTC on January 31st is February 1st, and the term
    ends on March 1st local time, 23:30 UTC on February 29th. *)
Example monthly_east_of_UTC :
  IndexJs.term sample_world_east (VStr "monthly") (Some 1706743800000)
  = Some 1709249400000
  /\ iso_string 1706743800000 = "2024-01-31T23:30:00.000Z"
  /\ iso_string 1709249400000 = "2024-02-29T23:30:00.000Z".
Proof. vm_compute. repeat split. Qed.

(** C2.  A subscribe request whose [plan_id] is none of the three:
    variant B answers 400 before any call on the database client; variant
    A, once the request is past its guard on [customer_info], applies the
    monthly rule without a word: the subscription it sends to the database
    ends one calendar month after the start, a healthy database keeps it,
    the answer is never a 400, and when both inserts are taken and the
    fields of the request can be written into the message it is the
    success of any other subscription. *)
Theorem unknown_plan_policy (W : World) (s : State) (req : object) :
  ~ recognised (lookup "plan_id" req) ->
  let now := clock W (clock_reads s) in
  (exists resp,
     fst (Part000.subscribe W req s) = Ok resp /\ status resp = 400
     /\ calls_made s (snd (Part000.subscribe W req s)) = []
     /\ db (snd (Part000.subscribe W req s)) = db s)
  /\ (truthy (lookup "customer_info" req) = true ->
      status_of_first (IndexJs.subscribe W req s) <> Some 400
      /\ exists end_local,
           civil_of end_local
           = plus_months 1 (civil_of (LocalTime (LocalTZA W) now))
           /\ IndexJs.term W (lookup "plan_id" req) (Some now)
              = TimeClip (UTC (LocalTZA W) end_local)
           /\ forall e,
                TimeClip (UTC (LocalTZA W) end_local) = Some e ->
                let row := Subscription (lookup "user_id" req)
                             (lookup "plan_id" req) now e in
                (exists rest,
                   calls_made s (snd (IndexJs.subscribe W req s))
                   = Insert "subscriptions" row :: rest)
                /\ (db_fault W (List.length (db_calls s)) = Healthy ->
                    In ("subscriptions", row)
                       (created_rows s (snd (IndexJs.subscribe W req s))))
                /\ (db_fault W (List.length (db_calls s)) = Healthy ->
                    db_fault W (S (List.length (db_calls s))) = Healthy ->
                    forallb has_text (note_fields_A req) = true ->
                    fst (IndexJs.subscribe W req s)
                    = Ok (json (VObj [("success", VBool true);
                                      ("saved_to_db", VBool true)])))).
Proof.
  intros U now. split.
  - apply subscribe_B_unknown_plan. exact U.
  - intros G. split.
    { destruct (subscribe_A_status W s req G) as [E | E]; rewrite E;
        discriminate. }
    destruct (term_calendar W "monthly" (plus_months 1) now eq_refl)
      as (x & C & TA & _).
    assert (T : IndexJs.term W (lookup "plan_id" req) (Some now)
                = TimeClip (UTC (LocalTZA W) x)).
    { rewrite term_A_fallback by exact U. rewrite <- TA.
      unfold IndexJs.term.
      change (strict_eq_str (VStr "monthly") "monthly") with true.
      reflexivity. }
    exists x. split; [exact C|]. split; [exact T|].
    intros e E row. rewrite E in T.
    destruct (subscribe_A_calls W s req e G T) as [H1 H2].
    split; [exact H1|]. split; [exact H2|].
    intros F1 F2 N. apply (subscribe_A_healthy W s req e G T N F1 F2).
Qed.

(** The plan "weekly" from a customer with a name and an address. *)
Lemma unknown_plan_policy_witness :
  let req := [("plan_id", VStr "weekly");
              ("customer_info",
               VObj [("fullname", VStr "A"); ("email", VStr "a@b.com")])] in
  status_of_first (Part000.subscribe (sample_world healthy) req
                     (initial_state [])) = Some 400
  /\ exists end_local,
       civil_of end_local = Civil 2024 2 2 0
       /\ IndexJs.term (sample_world healthy) (VStr "weekly")
            (Some 1706659200000)
          = TimeClip (UTC (fun _ _ => 0) end_local).
Proof.
  cbv zeta.
  set (req := [("plan_id", VStr "weekly");
               ("customer_info",
                VObj [("fullname", VStr "A"); ("email", VStr "a@b.com")])]).
  assert (U : ~ recognised (lookup "plan_id" req)).
  { unfold recognised. cbn. intros [H | [H | H]]; discriminate H. }
  destruct (unknown_plan_policy (sample_world healthy) (initial_state [])
              req U) as [(resp & E & St & _) HA].
  split.
  - unfold status_of_first. rewrite E, St. reflexivity.
  - destruct (HA eq_refl) as (_ & x & C & T & _). exists x.
    split; assumption.
Defined.

(** The plan "weekly" on a healthy database: variant A answers 200 and
    stores a subscription that ends on 2024-03-02, one month and the
    rollover after 2024-01-31. *)
Example weekly_is_monthly :
  let req := [("plan_id", VStr "weekly");
              ("customer_info",
               VObj [("fullname", VStr "A"); ("email", VStr "a@b.com")])] in
  let out := IndexJs.subscribe (sample_world healthy) req (initial_state []) in
  fst out
  = Ok (json (VObj [("success", VBool true); ("saved_to_db", VBool true)]))
  /\ In ("subscriptions",
         Subscription VUndefined (VStr "weekly") 1706659200000 1709337600000)
        (created_rows (initial_state []) (snd out)).
Proof. vm_compute. split; [reflexivity | left; reflexivity]. Qed.

(** A plan that cannot be written as text, [{"toString": 1}], takes the
    same fallback: the subscription is stored, and only then the message
    text fails to build; the answer is 500 with the text of that
    [TypeError], and the subscription stays without its message. *)
Example subscribe_A_unprintable_plan :
  let req := [("plan_id", VObj [("toString", VNum "1")]);
              ("customer_info",
               VObj [("fullname", VStr "A"); ("email", VStr "a@b.com")])] in
  let out := IndexJs.subscribe (sample_world healthy) req (initial_state []) in
  fst out
  = Ok (status_json 500
          (VObj [("error", VStr "Cannot convert object to primitive value")]))
  /\ created_rows (initial_state []) (snd out)
     = [("subscriptions",
         Subscription VUndefined (VObj [("toString", VNum "1")])
           1706659200000 1709337600000)].
Proof. vm_compute. split; reflexivity. Qed.

(** C5, as the code has it.  A subscribe that variant B answers with 200
    has the body [{success: true, subscription: {plan, start_date,
    end_date}}], with the requested plan and the computed term; one that
    variant A answers with 200 has the body [{success: true, saved_to_db:
    true}]. *)
Theorem subscribe_success_body
    (W : World) (s : State) (req : object) (resp : Response) :
  (fst (Part000.subscribe W req s) = Ok resp -> status resp = 200 ->
   exists finish,
     Part000.term W (lookup "plan_id" req) (Some (clock W (clock_reads s)))
     = Some (Some finish)
     /\ body resp
        = subscribed_body (lookup "plan_id" req) (clock W (clock_reads s))
            finish)
  /\ (fst (IndexJs.subscribe W req s) = Ok resp -> status resp = 200 ->
      body resp = VObj [("success", VBool true); ("saved_to_db", VBool true)]).
Proof.
  split.
  - apply subscribe_B_ok_body.
  - apply subscribe_A_ok_body.
Qed.

(** The answer of variant B to the sample request. *)
Lemma subscribe_success_body_witness :
  body (subscribed_response (VStr "monthly") 1706659200000 1709337600000)
  = subscribed_body (VStr "monthly") 1706659200000 1709337600000.
Proof.
  destruct (subscribe_success_body (sample_world healthy) (initial_state [])
              sample_subscribe
              (subscribed_response (VStr "monthly") 1706659200000
                 1709337600000)) as [HB _].
  destruct (HB eq_refl eq_refl) as (e & T & B).
  vm_compute in T. injection T as <-. exact B.
Defined.

(** C5 as stated fails on variant A: its answer to a successful subscribe
    has no [subscription] at all. *)
Lemma subscribe_A_body_has_no_subscription :
  exists resp,
    fst (IndexJs.subscribe (sample_world healthy) sample_subscribe
           (initial_state [])) = Ok resp
    /\ status resp = 200
    /\ get_prop (body resp) "subscription" = VUndefined
    /\ forall plan start finish,
         body resp <> subscribed_body plan start finish.
Proof.
  eexists. split; [vm_compute; reflexivity|].
  repeat split. intros plan start finish. discriminate.
Qed.

(** C6, as the code has it.  Every subscription the handler stores has
    status "active".  In variant B its [user_id] is drawn on the server,
    from [crypto.randomUUID], whatever the request holds; in variant A it
    is the [user_id] of the request body. *)
Theorem subscription_identity
    (W : World) (s : State) (req : object) (row : value) :
  (In ("subscriptions", row)
      (created_rows s (snd (Part000.subscribe W req s))) ->
   get_prop row "user_id" = VStr (randomUUID W (uuid_draws s))
   /\ get_prop row "status" = VStr "active")
  /\ (In ("subscriptions", row)
         (created_rows s (snd (IndexJs.subscribe W req s))) ->
      get_prop row "user_id" = lookup "user_id" req
      /\ get_prop row "status" = VStr "active").
Proof.
  split; intros H.
  - apply subscribe_B_created in H as (e & _ & ->). split; reflexivity.
  - apply subscribe_A_created in H as (e & _ & ->). split; reflexivity.
Qed.

(** The subscription variant B stores for the sample request. *)
Lemma subscription_identity_witness :
  let row := Subscription (VStr "3b241101-e2bb-4255-8caf-4136c566a962")
               (VStr "monthly") 1706659200000 1709337600000 in
  get_prop row "user_id" = VStr "3b241101-e2bb-4255-8caf-4136c566a962"
  /\ get_prop row "status" = VStr "active".
Proof.
  cbv zeta.
  apply (subscription_identity (sample_world healthy) (initial_state [])
           sample_subscribe).
  vm_compute. left. reflexivity.
Defined.

(** C6 as stated fails on variant A: the [user_id] it stores is the one
    the caller wrote in the request, and no identifier is drawn. *)
Lemma subscribe_A_takes_user_id_from_caller :
  let req := ("user_id", VStr "chosen-by-the-caller") :: sample_subscribe in
  let out := IndexJs.subscribe (sample_world healthy) req (initial_state []) in
  exists row,
    In ("subscriptions", row) (created_rows (initial_state []) (snd out))
    /\ get_prop row "user_id" = VStr "chosen-by-the-caller"
    /\ uuid_draws (snd out) = 0%nat
    /\ random_draws (snd out) = 0%nat.
Proof.
  eexists. split; [vm_compute; left; reflexivity|]. repeat split.
Qed.

(** C9, as the code has it.  Every subscription the handler stores ends
    strictly after it starts, and its end is a function of its plan, its
    start and the time zone of the server, in which the month or the year
    is added: the same function for both variants.  The zone's offsets are
    taken to stay below a day. *)
Theorem subscription_term_invariant
    (W : World) (s : State) (req : object) (row : value) :
  (forall t b, - msPerDay < LocalTZA W t b < msPerDay) ->
  In ("subscriptions", row)
     (created_rows s (snd (IndexJs.subscribe W req s)))
  \/ In ("subscriptions", row)
       (created_rows s (snd (Part000.subscribe W req s))) ->
  exists start finish,
    has_term row start finish /\ start < finish
    /\ term_in_zone (LocalTZA W) (get_prop row "plan_id") start
       = Some finish.
Proof.
  intros Z [H | H].
  - apply subscribe_A_created in H as (e & T & ->).
    exists (clock W (clock_reads s)), e.
    split; [split; reflexivity|]. split.
    + exact (term_A_later W Z _ _ _ T).
    + rewrite <- T. symmetry. apply term_A_in_zone.
  - apply subscribe_B_created in H as (e & T & ->).
    exists (clock W (clock_reads s)), e.
    split; [split; reflexivity|]. split.
    + exact (term_B_later W Z _ _ _ T).
    + apply term_B_is_term_A in T. rewrite <- T. symmetry.
      apply term_A_in_zone.
Qed.

(** The subscription variant A stores for the sample request. *)
Lemma subscription_term_invariant_witness :
  let row := Subscription VUndefined (VStr "monthly") 1706659200000
               1709337600000 in
  exists start finish,
    has_term row start finish /\ start < finish
    /\ term_in_zone (fun _ _ => 0) (get_prop row "plan_id") start
       = Some finish.
Proof.
  cbv zeta.
  assert (Z : forall (t : Z) (b : bool),
             - msPerDay < LocalTZA (sample_world healthy) t b < msPerDay).
  { intros t b. unfold msPerDay. simpl. lia. }
  apply (subscription_term_invariant (sample_world healthy)
           (initial_state []) sample_subscribe _ Z).
  left. vm_compute. left. reflexivity.
Defined.

(** C9 as stated fails: the end is no function of the plan and the start
    alone.  Two servers take the same request at the same instant,
    2024-01-31T23:30:00Z.  The one on UTC stores a subscription that ends
    on 2024-03-02; one hour east of UTC the day is already February 1st,
    and the subscription stored ends on 2024-02-29. *)
Lemma term_depends_on_time_zone :
  let s := initial_state [] in
  exists here east,
    In ("subscriptions", here)
       (created_rows s
          (snd (IndexJs.subscribe sample_world_evening sample_subscribe s)))
    /\ In ("subscriptions", east)
          (created_rows s
             (snd (IndexJs.subscribe sample_world_east sample_subscribe s)))
    /\ get_prop here "plan_id" = get_prop east "plan_id"
    /\ get_prop here "start_date" = VStr "2024-01-31T23:30:00.000Z"
    /\ get_prop east "start_date" = VStr "2024-01-31T23:30:00.000Z"
    /\ get_prop here "end_date" = VStr "2024-03-02T23:30:00.000Z"
    /\ get_prop east "end_date" = VStr "2024-02-29T23:30:00.000Z".
Proof.
  cbv zeta. do 2 eexists.
  split; [vm_compute; left; reflexivity|].
  split; [vm_compute; left; reflexivity|].
  vm_compute. repeat split.
Qed.

(** C8.  The two inserts of a subscribe are not atomic.  In both variants
    a database that takes the subscription and fails on the message makes
    the handler answer 500 with the subscription left in place; in
    variant A a database that fails on the subscription and takes the
    message leaves the message in place as well. *)
Theorem subscribe_not_atomic :
  (exists faults row,
     let out := IndexJs.subscribe (sample_world faults) sample_subscribe
                  (initial_state []) in
     status_of_first out = Some 500
     /\ created_rows (initial_state []) (snd out) = [("subscriptions", row)])
  /\ (exists faults row,
        let out := Part000.subscribe (sample_world faults) sample_subscribe
                     (initial_state []) in
        status_of_first out = Some 500
        /\ created_rows (initial_state []) (snd out)
           = [("subscriptions", row)])
  /\ (exists faults row,
        let out := IndexJs.subscribe (sample_world faults) sample_subscribe
                     (initial_state []) in
        status_of_first out = Some 500
        /\ created_rows (initial_state []) (snd out) = [("messages", row)]).
Proof.
  split; [|split].
  - exists (failing_at 1). eexists. vm_compute. split; reflexivity.
  - exists (failing_at 1). eexists. vm_compute. split; reflexivity.
  - exists (failing_at 0). eexists. vm_compute. split; reflexivity.
Qed.

(** *** Failures of the database *)







(** Were the client to reject instead, the [catch] block of [GET /plans]
    in variant A would answer with the message of the error it caught and
    write nothing on the console. *)
Lemma plans_A_leaks_raised_error :
  let out := IndexJs.plans (sample_world unreachable) (initial_state []) in
  fst out
  = Ok (status_json 500
          (VObj [("error", VStr "connect ECONNREFUSED 10.0.0.5:5432")]))
  /\ mentions (exn_message outage)
       (VObj [("error", VStr "connect ECONNREFUSED 10.0.0.5:5432")]) = true
  /\ console (snd out) = [].
Proof. vm_compute. repeat split. Qed.

(** The same [catch] block closes [POST /subscribe] and [GET /messages] of
    variant A. *)
Lemma subscribe_A_leaks_raised_error (W : World) (s : State) (req : object)
    (e : Exn) (finish : Z) :
  truthy (lookup "customer_info" req) = true ->
  IndexJs.term W (lookup "plan_id" req) (Some (clock W (clock_reads s)))
  = Some finish ->
  db_fault W (List.length (db_calls s)) = Raises e ->
  fst (IndexJs.subscribe W req s)
  = Ok (status_json 500 (VObj [("error", VStr (exn_message e))])).
Proof.
  intros C T F. unfold IndexJs.subscribe. run.
  rewrite C. run. rewrite T. run. rewrite F. reflexivity.
Qed.

Lemma messages_A_leaks_raised_error (W : World) (s : State) (e : Exn) :
  db_fault W (List.length (db_calls s)) = Raises e ->
  fst (IndexJs.messages W s)
  = Ok (status_json 500 (VObj [("error", VStr (exn_message e))])).
Proof. intros F. unfold IndexJs.messages. run. rewrite F. reflexivity. Qed.

(** Variant B never lets [POST /subscribe] escape with an exception, and
    whatever fails, its 500 has the one fixed body. *)
Lemma subscribe_B_failures_are_generic (W : World) (s : State)
    (req : object) :
  exists resp,
    fst (Part000.subscribe W req s) = Ok resp
    /\ (status resp = 500 ->
        body resp = VObj [("success", VBool false);
                          ("error", VStr "Subscription failed")]).
Proof.
  unfold Part000.subscribe. run.
  destruct (truthy (lookup "plan_id" req)); run;
    [|eexists; split; [reflexivity | discriminate]].
  destruct (truthy (opt_prop (lookup "customer_info" req) "fullname"))
    eqn:C; run; [|eexists; split; [reflexivity | discriminate]].
  destruct (truthy (opt_prop (lookup "customer_info" req) "email"));
    run; [|eexists; split; [reflexivity | discriminate]].
  rewrite (truthy_opt_prop_not_nullish _ _ C).
  destruct (Part000.term W (lookup "plan_id" req)
              (Some (clock W (clock_reads s)))) as [[e|]|]; run;
    try (eexists; split; [reflexivity | try discriminate; reflexivity]).
  go; eexists; (split; [reflexivity | try discriminate; reflexivity]).
Qed.

(** No handler of either variant lets an exception escape: each request
    gets a response, whatever the database does and whatever the request
    holds. *)
Lemma handlers_always_respond (W : World) (s : State) (req : object) :
  (exists r, fst (IndexJs.plans W s) = Ok r)
  /\ (exists r, fst (IndexJs.messages W s) = Ok r)
  /\ (exists r, fst (IndexJs.contact W req s) = Ok r)
  /\ (exists r, fst (IndexJs.subscribe W req s) = Ok r)
  /\ (exists r, fst (Part000.plans W s) = Ok r)
  /\ (exists r, fst (Part000.contact W req s) = Ok r)
  /\ (exists r, fst (Part000.subscribe W req s) = Ok r).
Proof.
  repeat split.
  - unfold IndexJs.plans. exec; eexists; reflexivity.
  - unfold IndexJs.messages. exec; eexists; reflexivity.
  - unfold IndexJs.contact. run.
    destruct (truthy (lookup "name" req)); run; [|eexists; reflexivity].
    destruct (truthy (lookup "email" req)); run; [|eexists; reflexivity].
    destruct (truthy (lookup "message" req)); run; [|eexists; reflexivity].
    go; eexists; reflexivity.
  - destruct (truthy (lookup "customer_info" req)) eqn:C.
    + destruct (subscribe_A_status W s req C) as [E | E];
        unfold status_of_first in E;
        destruct (fst (IndexJs.subscribe W req s)); try discriminate;
        eexists; reflexivity.
    + unfold IndexJs.subscribe. run. rewrite C. eexists; reflexivity.
  - unfold Part000.plans. exec; eexists; reflexivity.
  - unfold Part000.contact. run.
    destruct (truthy (lookup "name" req)); run; [|eexists; reflexivity].
    destruct (truthy (lookup "email" req)); run; [|eexists; reflexivity].
    destruct (truthy (lookup "message" req)); run; [|eexists; reflexivity].
    exec; eexists; reflexivity.
  - destruct (subscribe_B_failures_are_generic W s req) as (r & E & _).
    exists r. exact E.
Qed.

End ServerFacts.

(** ** The code around the claims *)

Module ExtraFacts.

Import JSDate JS Server Spec Extra JSDateFacts RegexFacts ServerFacts.

(** *** The read routes *)

(** X1.  [GET /plans] of both variants and [GET /messages] of variant A
    never change a row of the database and make exactly one call on its
    client, whatever the database does: the select on plans ordered by
    ascending price, and the select on messages ordered by descending
    creation time. *)
Theorem read_routes_only_read (W : World) (s : State) :
  (db (snd (IndexJs.plans W s)) = db s
   /\ calls_made s (snd (IndexJs.plans W s)) = [plans_query])
  /\ (db (snd (Part000.plans W s)) = db s
      /\ calls_made s (snd (Part000.plans W s)) = [plans_query])
  /\ (db (snd (IndexJs.messages W s)) = db s
      /\ calls_made s (snd (IndexJs.messages W s)) = [messages_query]).
Proof.
  unfold IndexJs.plans, Part000.plans, IndexJs.messages, plans_query,
    messages_query.
  repeat split; exec; added; reflexivity.
Qed.

(** X2.  On a database that answers the select, [GET /plans] behaves the
    same in both variants, response and final state alike: 200 with
    [{success: true, plans}] where [plans] is what the store returned, and
    [GET /messages] answers likewise with [messages]; on a database that
    fails the select, however it fails, each of the three answers 500. *)
Theorem read_routes_answers (W : World) (s : State) :
  (db_fault W (List.length (db_calls s)) = Healthy ->
   IndexJs.plans W s = Part000.plans W s
   /\ fst (IndexJs.plans W s)
      = Ok (json (VObj [("success", VBool true);
                        ("plans", answer_of W plans_query (db s))]))
   /\ fst (IndexJs.messages W s)
      = Ok (json (VObj [("success", VBool true);
                        ("messages", answer_of W messages_query (db s))])))
  /\ (db_fault W (List.length (db_calls s)) <> Healthy ->
      status_of_first (IndexJs.plans W s) = Some 500
      /\ status_of_first (Part000.plans W s) = Some 500
      /\ status_of_first (IndexJs.messages W s) = Some 500).
Proof.
  unfold IndexJs.plans, Part000.plans, IndexJs.messages, status_of_first.
  split; intros F.
  - run. rewrite F. repeat split.
  - repeat split; exec; try reflexivity; contradiction.
Qed.

(** The plans of a healthy store reach the caller of either variant. *)
Lemma read_routes_answers_witness :
  let s := initial_state [("plans", VObj [("id", VStr "monthly")])] in
  IndexJs.plans (sample_world healthy) s = Part000.plans (sample_world healthy) s
  /\ status_of_first (IndexJs.plans (sample_world unreachable) s) = Some 500.
Proof.
  cbv zeta.
  destruct (read_routes_answers (sample_world healthy)
              (initial_state [("plans", VObj [("id", VStr "monthly")])]))
    as [H _].
  destruct (read_routes_answers (sample_world unreachable)
              (initial_state [("plans", VObj [("id", VStr "monthly")])]))
    as [_ F].
  destruct (H eq_refl) as [E _].
  assert (N : db_fault (sample_world unreachable)
                (List.length
                   (db_calls
                      (initial_state [("plans", VObj [("id", VStr "monthly")])])))
              <> Healthy) by (simpl; discriminate).
  destruct (F N) as [E5 _]. split; assumption.
Defined.

(** *** The contact form *)

Section Contact.

Variables (W : World) (s : State) (req : object).

Lemma incomplete_contact_guard :
  complete_contact req = false ->
  negb (truthy (lookup "name" req)) || negb (truthy (lookup "email" req))
  || negb (truthy (lookup "message" req)) = true.
Proof.
  unfold complete_contact.
  destruct (truthy (lookup "name" req)); destruct (truthy (lookup "email" req));
    destruct (truthy (lookup "message" req)); cbn; congruence.
Qed.

End Contact.

(** X3.  A contact request that lacks a non-empty [name], [email] or
    [message] is answered 400 by both variants and leaves everything as it
    was: no reading of the clock, no identifier drawn, no call on the
    database client, no line on the console. *)
Theorem contact_rejects_incomplete (W : World) (s : State) (req : object) :
  complete_contact req = false ->
  IndexJs.contact W req s
  = (Ok (status_json 400
           (VObj [("success", VBool false);
                  ("error",
                   VStr "All fields are required: name, email, message")])),
     s)
  /\ Part000.contact W req s
     = (Ok (status_json 400 (VObj [("success", VBool false);
                                   ("error", VStr "Missing fields")])),
        s).
Proof.
  intros C. apply incomplete_contact_guard in C.
  unfold IndexJs.contact, Part000.contact. run.
  cbv beta iota delta [negb orb] in C. rewrite C. split; reflexivity.
Qed.

(** A contact without a message is turned away by both variants. *)
Lemma contact_rejects_incomplete_witness :
  let req := [("name", VStr "A"); ("email", VStr "a@b.com")] in
  status_of_first (IndexJs.contact (sample_world healthy) req
                     (initial_state [])) = Some 400
  /\ snd (Part000.contact (sample_world healthy) req (initial_state []))
     = initial_state [].
Proof.
  cbv zeta.
  destruct (contact_rejects_incomplete (sample_world healthy)
              (initial_state [])
              [("name", VStr "A"); ("email", VStr "a@b.com")] eq_refl)
    as [EA EB].
  unfold status_of_first. rewrite EA, EB. split; reflexivity.
Defined.

(** X4.  The identifier variant A returns for a stored contact message is
    the one it stored: for a complete request whose [email] has a
    well-formed text, whose [name] and [message] can be written as text,
    and a database that takes the insert, exactly one row is added, to
    [messages], of type [contact_form], created at the second reading of
    the clock, under the identifier [contact_<first reading>_<token>]; the
    answer is 200 and its [data.messageId] is that identifier, its
    [data.timestamp] the third reading of the clock. *)
Theorem contact_A_returns_stored_id
    (W : World) (s : State) (req : object) (address : string) :
  complete_contact req = true ->
  to_string (lookup "email" req) = Some address ->
  simple_email address ->
  has_text (lookup "name" req) = true ->
  has_text (lookup "message" req) = true ->
  db_fault W (List.length (db_calls s)) = Healthy ->
  let id := "contact_" ++ string_of_Z (clock W (clock_reads s)) ++ "_"
            ++ random36 W (random_draws s) in
  exists resp row,
    fst (IndexJs.contact W req s) = Ok resp
    /\ status resp = 200
    /\ created_rows s (snd (IndexJs.contact W req s)) = [("messages", row)]
    /\ get_prop row "user_id" = VStr id
    /\ get_prop (get_prop (body resp) "data") "messageId" = VStr id
    /\ get_prop row "type" = VStr "contact_form"
    /\ get_prop row "created_at"
       = VStr (iso_string (clock W (S (clock_reads s))))
    /\ get_prop (get_prop (body resp) "data") "timestamp"
       = VStr (iso_string (clock W (S (S (clock_reads s)))))
    /\ get_prop (get_prop (body resp) "data") "email" = lookup "email" req.
Proof.
  intros C A E Tn Tm F id.
  apply complete_contact_fields in C as (Hn & He & Hm).
  apply emailRegex_simple_email in E.
  apply has_text_Some in Tn as [name Tn].
  apply has_text_Some in Tm as [message Tm].
  unfold IndexJs.contact. run. rewrite Hn, He, Hm. run. go.
  do 2 eexists. split; [reflexivity|]. split; [reflexivity|].
  split; [added; reflexivity|]. repeat split.
Qed.

(** The sample contact: stored and answered under one identifier. *)
Lemma contact_A_returns_stored_id_witness :
  exists resp row,
    fst (IndexJs.contact (sample_world healthy) sample_contact
           (initial_state [])) = Ok resp
    /\ get_prop row "user_id" = VStr "contact_1706659200000_k3j9x0a1z"
    /\ get_prop (get_prop (body resp) "data") "messageId"
       = VStr "contact_1706659200000_k3j9x0a1z".
Proof.
  assert (E : simple_email "a@b.com").
  { apply emailRegex_simple_email. vm_compute. reflexivity. }
  destruct (contact_A_returns_stored_id (sample_world healthy)
              (initial_state []) sample_contact "a@b.com" eq_refl eq_refl E
              eq_refl eq_refl eq_refl)
    as (resp & row & H1 & _ & _ & H4 & H5 & _).
  exists resp, row. repeat split; assumption.
Defined.

(** X5.  Whatever the database does, variant A stores a contact message
    only for a complete request whose [email] has a text of the shape
    local-part [@] domain [.] tld without white space and whose [name] and
    [message] can be written as text, only in [messages], and never more
    than one row per request. *)
Theorem contact_A_stores_only_valid
    (W : World) (s : State) (req : object) (table : string) (row : value) :
  In (table, row) (created_rows s (snd (IndexJs.contact W req s))) ->
  table = "messages"
  /\ complete_contact req = true
  /\ (exists address,
        to_string (lookup "email" req) = Some address
        /\ simple_email address)
  /\ forallb has_text (note_fields_contact req) = true
  /\ created_rows s (snd (IndexJs.contact W req s)) = [(table, row)].
Proof.
  unfold IndexJs.contact, complete_contact. run.
  destruct (truthy (lookup "name" req)); run; [|added; intros []].
  destruct (truthy (lookup "email" req)); run; [|added; intros []].
  destruct (truthy (lookup "message" req)); run; [|added; intros []].
  go; added;
    intros H; repeat (destruct H as [H | H]); try contradiction;
    injection H as <- <-.
  split; [reflexivity|]. split; [reflexivity|].
  split; [eexists; split;
          [reflexivity | apply emailRegex_simple_email; assumption]|].
  split; [|reflexivity].
  unfold note_fields_contact, has_text. cbn [forallb].
  repeat match goal with
         | H : to_string _ = _ |- _ => rewrite H
         end.
  reflexivity.
Qed.

(** The row stored for the sample contact. *)
Lemma contact_A_stores_only_valid_witness :
  exists row,
    created_rows (initial_state [])
      (snd (IndexJs.contact (sample_world healthy) sample_contact
              (initial_state [])))
    = [("messages", row)]
    /\ complete_contact sample_contact = true.
Proof.
  eexists.
  refine ((fun H => conj (proj2 (proj2 (proj2 (proj2 H)))) (proj1 (proj2 H)))
            (contact_A_stores_only_valid (sample_world healthy)
               (initial_state []) sample_contact "messages" _ _)).
  vm_compute. left. reflexivity.
Defined.

(** The [email] [["a@b", 1.5e21]] is printed [a@b,1.5e+21], which the
    expression accepts: the request is stored and answered 200. *)
Example contact_A_array_email :
  let req := [("name", VStr "A");
              ("email", VArr [VStr "a@b"; VNum "1.5e+21"]);
              ("message", VStr "hello")] in
  let out := IndexJs.contact (sample_world healthy) req (initial_state []) in
  to_string (lookup "email" req) = Some "a@b,1.5e+21"
  /\ status_of_first out = Some 200
  /\ List.length (created_rows (initial_state []) (snd out)) = 1%nat.
Proof. vm_compute. repeat split. Qed.

(** X6.  Variant B stores a contact message exactly when the request is
    complete and the database takes the insert; the row is then the
    [name], [email] and [message] of the request as they came, and the
    answer is 200.  In every other case nothing is stored and the answer
    is not 200. *)
Theorem contact_B_stores_iff (W : World) (s : State) (req : object) :
  let out := Part000.contact W req s in
  let row := VObj [("name", lookup "name" req);
                   ("email", lookup "email" req);
                   ("message", lookup "message" req)] in
  (complete_contact req = true
   /\ db_fault W (List.length (db_calls s)) = Healthy ->
   created_rows s (snd out) = [("contact_messages", row)]
   /\ status_of_first out = Some 200)
  /\ (complete_contact req = false
      \/ db_fault W (List.length (db_calls s)) <> Healthy ->
      created_rows s (snd out) = []
      /\ status_of_first out <> Some 200).
Proof.
  cbv zeta. unfold status_of_first. split.
  - intros [C F]. apply complete_contact_fields in C as (Hn & He & Hm).
    unfold Part000.contact. run. rewrite Hn, He, Hm. run. rewrite F. run.
    split; [added; reflexivity | reflexivity].
  - intros [C | F].
    + apply incomplete_contact_guard in C.
      cbv beta iota delta [negb orb] in C.
      unfold Part000.contact. run. rewrite C.
      split; [added; reflexivity | discriminate].
    + unfold Part000.contact. run.
      destruct (truthy (lookup "name" req)); run;
        [|split; [added; reflexivity | discriminate]].
      destruct (truthy (lookup "email" req)); run;
        [|split; [added; reflexivity | discriminate]].
      destruct (truthy (lookup "message" req)); run;
        [|split; [added; reflexivity | discriminate]].
      exec; try contradiction; (split; [added; reflexivity | discriminate]).
Qed.

(** The sample contact on a healthy and on a failing database. *)
Lemma contact_B_stores_iff_witness :
  status_of_first (Part000.contact (sample_world healthy) sample_contact
                     (initial_state [])) = Some 200
  /\ created_rows (initial_state [])
       (snd (Part000.contact (sample_world (failing_at 0)) sample_contact
               (initial_state []))) = [].
Proof.
  destruct (contact_B_stores_iff (sample_world healthy) (initial_state [])
              sample_contact) as [H _].
  destruct (contact_B_stores_iff (sample_world (failing_at 0))
              (initial_state []) sample_contact) as [_ G].
  destruct (H (conj eq_refl eq_refl)) as [_ E].
  assert (N : db_fault (sample_world (failing_at 0))
                (List.length (db_calls (initial_state []))) <> Healthy)
    by (simpl; discriminate).
  destruct (G (or_intror N)) as [E0 _]. split; assumption.
Defined.

(** *** Trimming *)

Lemma string_app_assoc (a b c : string) :
  ((a ++ b) ++ c)%string = (a ++ (b ++ c))%string.
Proof. induction a; cbn; congruence. Qed.

Lemma string_app_nil_r (a : string) : (a ++ "")%string = a.
Proof. induction a; cbn; congruence. Qed.

Lemma rev_string_acc s : forall acc,
  rev_string acc s = (rev_string "" s ++ acc)%string.
Proof.
  induction s as [|c s IH]; intros acc; cbn; [reflexivity|].
  rewrite IH, (IH (String c "")), string_app_assoc. reflexivity.
Qed.

Lemma rev_string_app a b :
  rev_string "" (a ++ b) = (rev_string "" b ++ rev_string "" a)%string.
Proof.
  induction a as [|c a IH]; cbn.
  - rewrite string_app_nil_r. reflexivity.
  - rewrite (rev_string_acc (a ++ b) (String c "")), IH,
      (rev_string_acc a (String c "")), string_app_assoc. reflexivity.
Qed.

Lemma rev_string_involutive s : rev_string "" (rev_string "" s) = s.
Proof.
  induction s as [|c s IH]; cbn; [reflexivity|].
  rewrite (rev_string_acc s (String c "")), rev_string_app, IH.
  reflexivity.
Qed.

Lemma ends_clean_app s t : ends_clean t -> ends_clean (s ++ t).
Proof.
  intros (t' & z & -> & Hz). exists (s ++ t')%string, z.
  rewrite string_app_assoc. auto.
Qed.

(** [trim] removes the line break before and the indentation after a
    text that starts and ends with something else, and nothing more. *)
Lemma trim_padded a s :
  is_space a = false -> ends_clean (String a s) ->
  trim (nl ++ String a s ++ nl ++ "        ") = String a s.
Proof.
  intros Ha (s' & z & E & Hz). unfold trim.
  change (trim_start (nl ++ String a s ++ nl ++ "        "))
    with (if is_space a then trim_start (s ++ nl ++ "        ")
          else String a (s ++ nl ++ "        ")).
  rewrite Ha.
  change (String a (s ++ nl ++ "        "))
    with (String a s ++ nl ++ "        ")%string.
  rewrite E, !rev_string_app.
  change (rev_string "" "        ") with "        ".
  change (rev_string "" nl) with nl.
  change (rev_string "" (String z "")) with (String z "").
  rewrite string_app_assoc.
  change (trim_start ("        " ++ nl ++ String z "" ++ rev_string "" s'))
    with (if is_space z then trim_start (rev_string "" s')
          else String z (rev_string "" s')).
  rewrite Hz.
  change (String z (rev_string "" s'))
    with (String z "" ++ rev_string "" s')%string.
  rewrite rev_string_app, rev_string_involutive. reflexivity.
Qed.

Lemma recognised_ends_clean plan_id :
  recognised plan_id ->
  exists plan, to_string plan_id = Some plan /\ ends_clean plan.
Proof.
  intros [-> | [-> | ->]]; cbn; eexists; (split; [reflexivity|]).
  - exists "monthl", "y"%char. split; reflexivity.
  - exists "2month", "s"%char. split; reflexivity.
  - exists "annua", "l"%char. split; reflexivity.
Qed.

Lemma trim_note name email phone plan :
  ends_clean plan ->
  trim (nl ++ subscription_note name email phone plan ++ nl ++ "        ")
  = subscription_note name email phone plan.
Proof.
  intros R. unfold subscription_note.
  match goal with
  | |- trim (nl ++ ("Name: " ++ ?x) ++ _) = _ =>
      change ("Name: " ++ x)%string with (String "N" ("ame: " ++ x))
  end.
  apply trim_padded; [reflexivity|].
  match goal with
  | |- ends_clean (String "N" ("ame: " ++ ?x)) =>
      change (String "N" ("ame: " ++ x)) with ("Name: " ++ x)%string
  end.
  do 10 apply ends_clean_app. exact R.
Qed.

Lemma to_string_phone customer_info :
  to_string (or_else (get_prop customer_info "phone") (VStr "N/A"))
  = phone_text customer_info.
Proof.
  unfold or_else, phone_text.
  destruct (truthy (get_prop customer_info "phone")); reflexivity.
Qed.

Lemma term_B_recognised W plan_id d e :
  Part000.term W plan_id d = Some e -> recognised plan_id.
Proof.
  unfold Part000.term, recognised.
  destruct (strict_eq_str plan_id "monthly") eqn:A;
    [apply strict_eq_str_true in A; auto|].
  destruct (strict_eq_str plan_id "2months") eqn:B;
    [apply strict_eq_str_true in B; auto|].
  destruct (strict_eq_str plan_id "annual") eqn:C;
    [apply strict_eq_str_true in C; auto | discriminate].
Qed.

Lemma recognised_term_B W plan_id d :
  recognised plan_id -> exists e, Part000.term W plan_id d = Some e.
Proof.
  unfold Part000.term.
  intros [-> | [-> | ->]]; cbn [strict_eq_str];
    repeat match goal with
           | |- context [String.eqb ?a ?b] =>
               let v := eval vm_compute in (String.eqb a b) in
               change (String.eqb a b) with v
           end; cbv iota; eexists; reflexivity.
Qed.

(** Read a field off a row written as an object literal. *)
Ltac read_row :=
  cbn [get_prop lookup String.eqb Ascii.eqb Bool.eqb].

(** *** More on subscriptions *)

Section SubscribeMore.

Variables (W : World) (s : State) (req : object).

(** Split a run of variant B's subscribe on its three guards and on the
    term, closing the branches that stop early with [tac]. *)
Ltac enter_B tac :=
  unfold Part000.subscribe; run;
  destruct (truthy (lookup "plan_id" req)) eqn:?P; run; [|tac];
  destruct (truthy (opt_prop (lookup "customer_info" req) "fullname"))
    eqn:?C; run; [|tac];
  destruct (truthy (opt_prop (lookup "customer_info" req) "email"))
    eqn:?E; run; [|tac].

(** X7.  The rows a subscribe stores belong to [subscriptions] and
    [messages] only, and those of one request carry one [user_id]: in
    variant B the message is stored under the identifier drawn for the
    subscription, which is stored with it; in variant A both carry the
    [user_id] of the request. *)
Theorem subscribe_rows_share_user_id (table : string) (row : value) :
  (In (table, row) (created_rows s (snd (Part000.subscribe W req s))) ->
   (table = "subscriptions" \/ table = "messages")
   /\ get_prop row "user_id" = VStr (randomUUID W (uuid_draws s))
   /\ exists sub,
        In ("subscriptions", sub)
           (created_rows s (snd (Part000.subscribe W req s)))
        /\ get_prop sub "user_id" = get_prop row "user_id")
  /\ (In (table, row) (created_rows s (snd (IndexJs.subscribe W req s))) ->
      (table = "subscriptions" \/ table = "messages")
      /\ get_prop row "user_id" = lookup "user_id" req).
Proof.
  split.
  - enter_B ltac:(added; intros []).
    rewrite (truthy_opt_prop_not_nullish _ _ C).
    destruct (Part000.term W (lookup "plan_id" req)
                (Some (clock W (clock_reads s)))) as [[e|]|]; run;
      try (added; intros []).
    go; added;
      intros H; repeat (destruct H as [H | H]); try contradiction;
      injection H as <- <-; read_row;
      (split; [auto|]; split; [reflexivity|];
       eexists; split; [left; reflexivity | reflexivity]).
  - unfold IndexJs.subscribe. run.
    destruct (truthy (lookup "customer_info" req)) eqn:C; run;
      [|added; intros []].
    rewrite (truthy_not_nullish _ C).
    destruct (IndexJs.term W (lookup "plan_id" req)
                (Some (clock W (clock_reads s)))) as [e|]; run;
      [|added; intros []].
    go; added;
      intros H; repeat (destruct H as [H | H]); try contradiction;
      injection H as <- <-; read_row; auto.
Qed.

(** X8.  The text stored with a subscription.  Each field is written as
    the language prints it (the number 1e21 as [1e+21]), and a message is
    stored only when every field has a text.  Variant B stores, under the
    subject [New IPTV Subscription], exactly the four lines Name, Email,
    Phone and Plan: [trim] takes away the line break and the indentation
    around them and nothing of the customer's data.  Variant A stores the
    same four lines followed by a Payment line, under a subject that ends
    with the customer's address.  In both, the Phone line reads [N/A]
    when the request has no phone. *)
Theorem subscribe_message_text (m : value) :
  let customer_info := lookup "customer_info" req in
  let plan_id := lookup "plan_id" req in
  (In ("messages", m) (created_rows s (snd (Part000.subscribe W req s))) ->
   exists name email phone plan,
     to_string (get_prop customer_info "fullname") = Some name
     /\ to_string (get_prop customer_info "email") = Some email
     /\ phone_text customer_info = Some phone
     /\ to_string plan_id = Some plan
     /\ get_prop m "subject" = VStr "New IPTV Subscription"
     /\ get_prop m "message"
        = VStr (subscription_note name email phone plan))
  /\ (In ("messages", m) (created_rows s (snd (IndexJs.subscribe W req s))) ->
      exists name email phone plan payment,
        to_string (get_prop customer_info "fullname") = Some name
        /\ to_string (get_prop customer_info "email") = Some email
        /\ phone_text customer_info = Some phone
        /\ to_string plan_id = Some plan
        /\ to_string (lookup "payment_method" req) = Some payment
        /\ get_prop m "subject"
           = VStr ("New IPTV Subscription - " ++ email)
        /\ get_prop m "message"
           = VStr (subscription_note name email phone plan ++ nl
                   ++ "Payment: " ++ payment)).
Proof.
  cbv zeta. split.
  - enter_B ltac:(added; intros []).
    rewrite (truthy_opt_prop_not_nullish _ _ C).
    destruct (Part000.term W (lookup "plan_id" req)
                (Some (clock W (clock_reads s)))) as [[e|]|] eqn:T; run;
      try (added; intros []).
    apply term_B_recognised in T.
    apply recognised_ends_clean in T as (plan & Tp & Ec).
    rewrite <- to_string_phone.
    go; added;
      intros H; repeat (destruct H as [H | H]); try contradiction;
      try discriminate H; injection H as <-; read_row.
    do 4 eexists. repeat (split; [reflexivity|]). f_equal.
    match goal with
    | |- _ = subscription_note ?a ?b ?c ?d =>
        rewrite <- (trim_note a b c d Ec)
    end.
    unfold subscription_note. rewrite !string_app_assoc. reflexivity.
  - unfold IndexJs.subscribe. run.
    destruct (truthy (lookup "customer_info" req)) eqn:C; run;
      [|added; intros []].
    rewrite (truthy_not_nullish _ C), <- to_string_phone.
    destruct (IndexJs.term W (lookup "plan_id" req)
                (Some (clock W (clock_reads s)))) as [e|]; run;
      [|added; intros []].
    go; added;
      intros H; repeat (destruct H as [H | H]); try contradiction;
      try discriminate H; injection H as <-; read_row;
      (do 5 eexists; repeat (split; [reflexivity|]); f_equal;
       unfold subscription_note; rewrite !string_app_assoc; reflexivity).
Qed.

(** X9.  Variant B stops at the first failure and never tries twice: a
    subscribe makes at most two calls on the database client, and when the
    insert of the subscription fails, by a returned or a raised error, the
    message is not sent, nothing is stored and the answer is 500. *)
Theorem subscribe_B_stops_at_first_failure :
  let out := Part000.subscribe W req s in
  (List.length (calls_made s (snd out)) <= 2)%nat
  /\ (db_fault W (List.length (db_calls s)) <> Healthy ->
      (List.length (calls_made s (snd out)) <= 1)%nat
      /\ created_rows s (snd out) = []
      /\ status_of_first out <> Some 200).
Proof.
  cbv zeta. unfold status_of_first. split; [|intros F].
  - enter_B ltac:(added; cbn; lia).
    rewrite (truthy_opt_prop_not_nullish _ _ C).
    destruct (Part000.term W (lookup "plan_id" req)
                (Some (clock W (clock_reads s)))) as [[e|]|]; run;
      try (added; cbn; lia).
    go; added; cbn; lia.
  - enter_B ltac:(added; cbn; repeat split; (lia || discriminate)).
    rewrite (truthy_opt_prop_not_nullish _ _ C).
    destruct (Part000.term W (lookup "plan_id" req)
                (Some (clock W (clock_reads s)))) as [[e|]|]; run;
      try (added; cbn; repeat split; (lia || discriminate)).
    go; try contradiction;
      added; cbn; repeat split; (lia || discriminate).
Qed.

(** X10.  Variant A goes on after a returned error: when the insert of the
    subscription returns an error, and the fields of the request can be
    written into the message, the insert of the message is still issued;
    if that one is taken, the message is stored alone.  As long as the
    second insert does not raise, the answer is 500 with the fixed text
    [Failed to save data to database.], and one console line holds the
    returned errors. *)
Theorem subscribe_A_goes_on_after_error (e : Z) (x : Exn) :
  truthy (lookup "customer_info" req) = true ->
  IndexJs.term W (lookup "plan_id" req) (Some (clock W (clock_reads s)))
  = Some e ->
  forallb has_text (note_fields_A req) = true ->
  db_fault W (List.length (db_calls s)) = ReturnsError x ->
  let out := IndexJs.subscribe W req s in
  let failed := Ok (status_json 500
                      (VObj [("error",
                              VStr "Failed to save data to database.")])) in
  (exists sub msg,
     calls_made s (snd out)
     = [Insert "subscriptions" sub; Insert "messages" msg]
     /\ (db_fault W (S (List.length (db_calls s))) = Healthy ->
         created_rows s (snd out) = [("messages", msg)]
         /\ fst out = failed
         /\ console (snd out) = (console s ++ [("DB Error:", [x])])%list)
     /\ (forall y,
           db_fault W (S (List.length (db_calls s))) = ReturnsError y ->
           created_rows s (snd out) = []
           /\ fst out = failed
           /\ console (snd out)
              = (console s ++ [("DB Error:", [x; y])])%list)).
Proof.
  intros C T N F. cbv zeta.
  apply note_fields_A_text in N
    as (t1 & t2 & t3 & t4 & t5 & N1 & N2 & N3 & N4 & N5).
  unfold IndexJs.subscribe. run.
  rewrite C. run. rewrite T. run. rewrite (truthy_not_nullish _ C), F. run.
  rewrite N1. run. rewrite N2. run. rewrite N3. run. rewrite N4. run.
  rewrite N5. run. rewrite length_snoc.
  do 2 eexists.
  destruct (db_fault W (S (List.length (db_calls s)))) eqn:F2; run;
    (split; [added; reflexivity|]); split;
    try discriminate; try (intros y [= <-]); intros;
    repeat split; added; reflexivity.
Qed.

(** Evaluate what went wrong at the database in a finished branch. *)
Ltac failure_calc :=
  unfold db_failure; added;
  repeat (cbn [List.length first_failure];
          match goal with
          | F : db_fault ?W ?n = _ |- context [db_fault ?W ?n] => rewrite F
          end);
  cbn [List.length first_failure].

(** A branch that ends without a 500, a line or a failure. *)
Ltac quiet := repeat split; [discriminate | failure_calc; reflexivity].

(** X11.  Variant B logs every failure and nothing else.  Each of its
    three database routes either answers 500 with its one fixed body and
    adds one line to the console, or answers something else, leaves the
    console as it was and has met no failure of the database.  The line
    holds the error that caused the 500: the error of the call that
    failed, returned or raised, which was the last call made; or, when no
    call failed, the [RangeError] of a term that ends outside the range of
    dates, or the [TypeError] of a field that cannot be written into the
    message, which only a subscribe can meet. *)
Theorem variant_B_logs_each_failure :
  let now := clock W (clock_reads s) in
  let answers (out : Result Response * State) (label text : string)
      (own : Exn -> Prop) :=
    (exists e,
       fst out = Ok (failure_flagged text)
       /\ console (snd out) = (console s ++ [(label, [e])])%list
       /\ (db_failure W s (snd out) = Some e
           \/ (db_failure W s (snd out) = None /\ own e)))
    \/ (status_of_first out <> Some 500 /\ console (snd out) = console s
        /\ db_failure W s (snd out) = None)
  in
  answers (Part000.plans W s) "Plans fetch error:" "Unable to fetch plans"
    (fun _ => False)
  /\ answers (Part000.contact W req s) "Contact error:"
       "Unable to send message" (fun _ => False)
  /\ answers (Part000.subscribe W req s) "Subscribe error:"
       "Subscription failed"
       (fun e =>
          (e = invalid_time
           /\ Part000.term W (lookup "plan_id" req) (Some now) = Some None)
          \/ (e = conversion_error
              /\ forallb has_text (note_fields_B req) = false)).
Proof.
  cbv zeta. unfold status_of_first, failure_flagged.
  split; [|split].
  - unfold Part000.plans. exec;
      solve [ right; quiet
            | left; eexists; split; [reflexivity|]; split; [reflexivity|];
              left; failure_calc; reflexivity ].
  - unfold Part000.contact. run.
    destruct (truthy (lookup "name" req)); run;
      [|right; quiet].
    destruct (truthy (lookup "email" req)); run;
      [|right; quiet].
    destruct (truthy (lookup "message" req)); run;
      [|right; quiet].
    go;
      solve [ right; quiet
            | left; eexists; split; [reflexivity|]; split; [reflexivity|];
              left; failure_calc; reflexivity ].
  - enter_B ltac:(right; quiet).
    rewrite (truthy_opt_prop_not_nullish _ _ C).
    destruct (Part000.term W (lookup "plan_id" req)
                (Some (clock W (clock_reads s)))) as [[e|]|] eqn:T; run.
    + go;
        try solve
          [ right; quiet
          | left; eexists; split; [reflexivity|]; split; [reflexivity|];
            left; failure_calc; reflexivity ];
        (left; eexists; split; [reflexivity|]; split; [reflexivity|];
         right; split; [failure_calc; reflexivity|]; right;
         split; [reflexivity|];
         unfold note_fields_B, has_text; cbn [forallb];
         repeat match goal with
                | H : to_string _ = _ |- _ => rewrite H
                end;
         cbn [andb]; rewrite ?andb_false_r; reflexivity).
    + left. eexists. split; [reflexivity|]. split; [reflexivity|].
      right. split; [failure_calc; reflexivity|]. left. auto.
    + right. quiet.
Qed.

(** X12.  The contact form of variant A keeps the cause of a failure to
    itself, unlike the other routes of that file, and logs it.  Whatever
    the database does and whatever the request holds, one of four things
    happens.  The insert returned an error: the answer is 500 [Failed to
    save contact message to database], and that error is logged.  The
    insert raised an error: the answer is 500 [Server error processing
    contact form], and that error is logged.  A field has no text: no
    call is made on the database client, the answer is the same 500, and
    the [TypeError] of the conversion is logged.  Or no call failed, the
    answer is no 500 and the console is left as it was. *)
Theorem contact_A_failures_are_generic :
  let out := IndexJs.contact W req s in
  (exists e,
     db_fault W (List.length (db_calls s)) = ReturnsError e
     /\ db_failure W s (snd out) = Some e
     /\ fst out
        = Ok (failure_flagged "Failed to save contact message to database")
     /\ console (snd out)
        = (console s ++ [("Database error saving contact form:", [e])])%list)
  \/ (exists e,
        db_fault W (List.length (db_calls s)) = Raises e
        /\ db_failure W s (snd out) = Some e
        /\ fst out = Ok (failure_flagged "Server error processing contact form")
        /\ console (snd out)
           = (console s ++ [("Contact form error:", [e])])%list)
  \/ (forallb has_text (note_fields_contact req) = false
      /\ calls_made s (snd out) = []
      /\ fst out = Ok (failure_flagged "Server error processing contact form")
      /\ console (snd out)
         = (console s ++ [("Contact form error:", [conversion_error])])%list)
  \/ (status_of_first out <> Some 500 /\ console (snd out) = console s
      /\ db_failure W s (snd out) = None).
Proof.
  cbv zeta. unfold status_of_first, failure_flagged.
  unfold IndexJs.contact. run.
  destruct (truthy (lookup "name" req)); run;
    [|do 3 right; quiet].
  destruct (truthy (lookup "email" req)); run;
    [|do 3 right; quiet].
  destruct (truthy (lookup "message" req)); run;
    [|do 3 right; quiet].
  go;
    solve
      [ do 3 right; quiet
      | do 3 right; quiet
      | left; eexists; split; [first [eassumption | reflexivity]|];
        split; [failure_calc; reflexivity|]; split; reflexivity
      | right; left; eexists; split; [first [eassumption | reflexivity]|];
        split; [failure_calc; reflexivity|]; split; reflexivity
      | right; right; left;
        split; [unfold note_fields_contact, has_text; cbn [forallb];
                repeat match goal with
                       | H : to_string _ = _ |- _ => rewrite H
                       end;
                cbn [andb]; rewrite ?andb_false_r; reflexivity|];
        split; [added; reflexivity|]; split; reflexivity ].
Qed.

(** X13.  Variant B draws one identifier for each request that passes its
    checks and none for a request it rejects, so that two accepted
    requests in a row are stored under consecutive draws of the
    generator; variant A draws no identifier for a subscribe. *)
Theorem subscribe_draws_identifiers (next : object) (row : value) :
  let after := snd (Part000.subscribe W req s) in
  (complete_subscribe req = true /\ recognised (lookup "plan_id" req) ->
   uuid_draws after = S (uuid_draws s)
   /\ (In ("subscriptions", row)
          (created_rows after (snd (Part000.subscribe W next after))) ->
       get_prop row "user_id" = VStr (randomUUID W (S (uuid_draws s)))))
  /\ (complete_subscribe req = false \/ ~ recognised (lookup "plan_id" req) ->
      uuid_draws after = uuid_draws s)
  /\ uuid_draws (snd (IndexJs.subscribe W req s)) = uuid_draws s
  /\ random_draws (snd (IndexJs.subscribe W req s)) = random_draws s.
Proof.
  cbv zeta. split; [|split; [|split]].
  - intros [C R].
    assert (D : uuid_draws (snd (Part000.subscribe W req s))
                = S (uuid_draws s)).
    { apply complete_subscribe_fields in C as (C1 & C2 & C3).
      destruct (recognised_term_B W _ (Some (clock W (clock_reads s))) R)
        as [e T].
      unfold Part000.subscribe. run. rewrite C1, C2, C3. run. rewrite T.
      rewrite (truthy_opt_prop_not_nullish _ _ C2).
      destruct e; exec; reflexivity. }
    split; [exact D|]. intros H.
    apply subscribe_B_created in H as (e & _ & ->).
    read_row. rewrite D. reflexivity.
  - intros [C | U].
    + unfold complete_subscribe in C. rewrite <- !field_opt_prop in C.
      unfold Part000.subscribe. run.
      destruct (truthy (lookup "plan_id" req));
        destruct (truthy (opt_prop (lookup "customer_info" req) "fullname"));
        destruct (truthy (opt_prop (lookup "customer_info" req) "email"));
        try discriminate C; reflexivity.
    + enter_B ltac:(reflexivity).
      rewrite (term_B_unknown W _ _ U). reflexivity.
  - unfold IndexJs.subscribe. run.
    destruct (truthy (lookup "customer_info" req)) eqn:C; run;
      [|reflexivity].
    rewrite (truthy_not_nullish _ C).
    destruct (IndexJs.term W (lookup "plan_id" req)
                (Some (clock W (clock_reads s)))) as [e|]; exec; reflexivity.
  - unfold IndexJs.subscribe. run.
    destruct (truthy (lookup "customer_info" req)) eqn:C; run;
      [|reflexivity].
    rewrite (truthy_not_nullish _ C).
    destruct (IndexJs.term W (lookup "plan_id" req)
                (Some (clock W (clock_reads s)))) as [e|]; exec; reflexivity.
Qed.

End SubscribeMore.

(** *** How long a term lasts *)

Lemma MakeDay_next_month y m d :
  0 <= m <= 11 -> MakeDay y (m + 1) d - MakeDay y m d = DaysInMonth y m.
Proof.
  intros Hm. rewrite DaysInMonth_span by exact Hm.
  rewrite (MakeDay_in_year y m) by exact Hm. unfold MakeDay, month_span.
  destruct (leap_days_range y) as [L | L];
    destruct (leap_days_range (y + 1)) as [L' | L'];
    month_cases m; calc_div12;
    rewrite ?Z.add_0_r, ?DayFromYear_succ, ?DaysInYear_leap, ?L, ?L';
    calc_month_start; lia.
Qed.

Lemma MakeDay_two_months y m d :
  0 <= m <= 11 -> 59 <= MakeDay y (m + 2) d - MakeDay y m d <= 62.
Proof.
  intros Hm. rewrite (MakeDay_in_year y m) by exact Hm. unfold MakeDay.
  destruct (leap_days_range y) as [L | L];
    destruct (leap_days_range (y + 1)) as [L' | L'];
    month_cases m; calc_div12;
    rewrite ?Z.add_0_r, ?DayFromYear_succ, ?DaysInYear_leap, ?L, ?L';
    calc_month_start; lia.
Qed.

Lemma span_arith lt t e D0 D1 tm o :
  lt = MakeDate D0 tm -> lt = t + o -> e = MakeDate D1 tm - o ->
  e - t = msPerDay * (D1 - D0).
Proof. unfold MakeDate, msPerDay. lia. Qed.

Section FixedZone.

Variables (tz : Z -> bool -> Z) (offset : Z).

Hypothesis fixed_zone : forall t b, tz t b = offset.

Lemma setMonth_span t k e :
  setMonth tz (Some t) (Some (MonthFromTime (LocalTime tz t) + k)) = Some e ->
  e - t = msPerDay
          * (MakeDay (YearFromTime (LocalTime tz t))
               (MonthFromTime (LocalTime tz t) + k)
               (DateFromTime (LocalTime tz t))
             - Day (LocalTime tz t)).
Proof.
  unfold setMonth.
  match goal with |- TimeClip (UTC tz ?n) = _ -> _ => set (newDate := n) end.
  assert (Hn : newDate = MakeDate
                 (MakeDay (YearFromTime (LocalTime tz t))
                    (MonthFromTime (LocalTime tz t) + k)
                    (DateFromTime (LocalTime tz t)))
                 (TimeWithinDay (LocalTime tz t))) by reflexivity.
  clearbody newDate. unfold TimeClip.
  destruct (maxTime <? Z.abs (UTC tz newDate)); [discriminate|].
  intros He. injection He as He. subst e.
  eapply span_arith;
    [ symmetry; apply (MakeDate_Day (LocalTime tz t))
    | unfold LocalTime; rewrite fixed_zone; reflexivity
    | unfold UTC; rewrite fixed_zone, Hn; reflexivity ].
Qed.

Lemma setFullYear_span t e :
  setFullYear tz (Some t) (Some (YearFromTime (LocalTime tz t) + 1)) = Some e ->
  e - t = msPerDay
          * (MakeDay (YearFromTime (LocalTime tz t) + 1)
               (MonthFromTime (LocalTime tz t))
               (DateFromTime (LocalTime tz t))
             - Day (LocalTime tz t)).
Proof.
  unfold setFullYear.
  match goal with |- TimeClip (UTC tz ?n) = _ -> _ => set (newDate := n) end.
  assert (Hn : newDate = MakeDate
                 (MakeDay (YearFromTime (LocalTime tz t) + 1)
                    (MonthFromTime (LocalTime tz t))
                    (DateFromTime (LocalTime tz t)))
                 (TimeWithinDay (LocalTime tz t))) by reflexivity.
  clearbody newDate. unfold TimeClip.
  destruct (maxTime <? Z.abs (UTC tz newDate)); [discriminate|].
  intros He. injection He as He. subst e.
  eapply span_arith;
    [ symmetry; apply (MakeDate_Day (LocalTime tz t))
    | unfold LocalTime; rewrite fixed_zone; reflexivity
    | unfold UTC; rewrite fixed_zone, Hn; reflexivity ].
Qed.

End FixedZone.

(** X14.  On a server whose time zone has one fixed offset, a monthly
    subscription lasts exactly as many days as the month it starts in
    has (in the server's calendar), a two-month subscription between 59
    and 62 days, and an annual one 365 or 366 days; each to the
    millisecond, in both variants. *)
Theorem term_lengths (W : World) (offset now e : Z) :
  (forall t b, LocalTZA W t b = offset) ->
  let start := civil_of (LocalTime (LocalTZA W) now) in
  (IndexJs.term W (VStr "monthly") (Some now) = Some e
   \/ Part000.term W (VStr "monthly") (Some now) = Some (Some e) ->
   e - now = msPerDay * DaysInMonth (c_year start) (c_month start))
  /\ (IndexJs.term W (VStr "2months") (Some now) = Some e
      \/ Part000.term W (VStr "2months") (Some now) = Some (Some e) ->
      exists days, e - now = msPerDay * days /\ 59 <= days <= 62)
  /\ (IndexJs.term W (VStr "annual") (Some now) = Some e
      \/ Part000.term W (VStr "annual") (Some now) = Some (Some e) ->
      e - now = msPerDay * 365 \/ e - now = msPerDay * 366).
Proof.
  intros Z start.
  pose proof (MonthFromTime_range (LocalTime (LocalTZA W) now)) as Hm.
  split; [|split]; intros T.
  - assert (T' : IndexJs.term W (VStr "monthly") (Some now) = Some e)
      by (destruct T as [T | T]; [exact T | exact (term_B_is_term_A _ _ _ _ T)]).
    clear T. rewrite term_A_monthly, add_one_month_Some in T'.
    rewrite (setMonth_span _ offset Z _ _ _ T').
    rewrite <- (Day_MakeDay (LocalTime (LocalTZA W) now)).
    rewrite MakeDay_next_month by exact Hm. reflexivity.
  - assert (T' : IndexJs.term W (VStr "2months") (Some now) = Some e)
      by (destruct T as [T | T]; [exact T | exact (term_B_is_term_A _ _ _ _ T)]).
    clear T. rewrite term_A_2months, add_two_months_Some in T'.
    eexists. split; [exact (setMonth_span _ offset Z _ _ _ T')|].
    rewrite <- (Day_MakeDay (LocalTime (LocalTZA W) now)).
    apply MakeDay_two_months. exact Hm.
  - assert (T' : IndexJs.term W (VStr "annual") (Some now) = Some e)
      by (destruct T as [T | T]; [exact T | exact (term_B_is_term_A _ _ _ _ T)]).
    clear T. rewrite term_A_annual, add_one_year_Some in T'.
    rewrite (setFullYear_span _ offset Z _ _ T').
    pose proof (MakeDay_year_ahead (YearFromTime (LocalTime (LocalTZA W) now))
                  (MonthFromTime (LocalTime (LocalTZA W) now))
                  (DateFromTime (LocalTime (LocalTZA W) now)) Hm) as G.
    rewrite Day_MakeDay in G.
    set (d := MakeDay _ _ _ - _) in *. clearbody d.
    assert (D : d = 365 \/ d = 366) by lia.
    destruct D as [-> | ->]; auto.
Qed.

(** From 2024-01-31, a month of 31 days. *)
Lemma term_lengths_witness :
  1709337600000 - 1706659200000 = msPerDay * 31.
Proof.
  assert (T : IndexJs.term (sample_world healthy) (VStr "monthly")
                (Some 1706659200000) = Some 1709337600000)
    by (vm_compute; reflexivity).
  destruct (term_lengths (sample_world healthy) 0 1706659200000 1709337600000
              (fun _ _ => eq_refl)) as [H _].
  exact (H (or_introl T)).
Defined.

(** The message of the sample request is stored under the identifier of
    its subscription. *)
Lemma subscribe_rows_share_user_id_witness :
  exists row,
    In ("messages", row)
       (created_rows (initial_state [])
          (snd (Part000.subscribe (sample_world healthy) sample_subscribe
                  (initial_state []))))
    /\ get_prop row "user_id" = VStr "3b241101-e2bb-4255-8caf-4136c566a962".
Proof.
  assert (I : exists row,
             In ("messages", row)
                (created_rows (initial_state [])
                   (snd (Part000.subscribe (sample_world healthy)
                           sample_subscribe (initial_state [])))))
    by (eexists; vm_compute; right; left; reflexivity).
  destruct I as [row I]. exists row. split; [exact I|].
  destruct (subscribe_rows_share_user_id (sample_world healthy)
              (initial_state []) sample_subscribe "messages" row) as [HB _].
  destruct (HB I) as (_ & U & _). exact U.
Defined.

(** The text variant A stores for a request without a phone that pays
    with the number 1e21. *)
Lemma subscribe_message_text_witness :
  exists m,
    In ("messages", m)
       (created_rows (initial_state [])
          (snd (IndexJs.subscribe (sample_world healthy)
                  sample_subscribe_number (initial_state []))))
    /\ get_prop m "message"
       = VStr ("Name: A" ++ nl ++ "Email: a@b.com" ++ nl ++ "Phone: N/A" ++ nl
               ++ "Plan: monthly" ++ nl ++ "Payment: 1e+21").
Proof.
  assert (I : exists m,
             In ("messages", m)
                (created_rows (initial_state [])
                   (snd (IndexJs.subscribe (sample_world healthy)
                           sample_subscribe_number (initial_state [])))))
    by (eexists; vm_compute; right; left; reflexivity).
  destruct I as [m I]. exists m. split; [exact I|].
  destruct (subscribe_message_text (sample_world healthy)
              (initial_state []) sample_subscribe_number m) as [_ HA].
  destruct (HA I)
    as (name & email & phone & plan & payment & N1 & N2 & N3 & N4 & N5
        & _ & T).
  vm_compute in N1, N2, N3, N4, N5.
  injection N1 as <-. injection N2 as <-. injection N3 as <-.
  injection N4 as <-. injection N5 as <-. exact T.
Defined.

(** A database that fails the first insert: one call, nothing stored. *)
Lemma subscribe_B_stops_at_first_failure_witness :
  let out := Part000.subscribe (sample_world (failing_at 0)) sample_subscribe
               (initial_state []) in
  (List.length (calls_made (initial_state []) (snd out)) <= 1)%nat
  /\ created_rows (initial_state []) (snd out) = []
  /\ status_of_first out <> Some 200.
Proof.
  cbv zeta.
  destruct (subscribe_B_stops_at_first_failure (sample_world (failing_at 0))
              (initial_state []) sample_subscribe) as [_ H].
  apply H. simpl. discriminate.
Defined.

(** The same database under variant A: two calls, the message stored
    alone. *)
Lemma subscribe_A_goes_on_after_error_witness :
  let out := IndexJs.subscribe (sample_world (failing_at 0)) sample_subscribe
               (initial_state []) in
  exists sub msg,
    calls_made (initial_state []) (snd out)
    = [Insert "subscriptions" sub; Insert "messages" msg]
    /\ created_rows (initial_state []) (snd out) = [("messages", msg)].
Proof.
  cbv zeta.
  assert (T : IndexJs.term (sample_world (failing_at 0))
                (lookup "plan_id" sample_subscribe)
                (Some (clock (sample_world (failing_at 0))
                         (clock_reads (initial_state []))))
              = Some 1709337600000) by (vm_compute; reflexivity).
  destruct (subscribe_A_goes_on_after_error (sample_world (failing_at 0))
              (initial_state []) sample_subscribe 1709337600000 outage
              eq_refl T eq_refl eq_refl) as (sub & msg & Hc & Hh & _).
  exists sub, msg. split; [exact Hc|].
  destruct (Hh eq_refl) as [Hr _]. exact Hr.
Defined.

(** The sample request draws the first identifier of the generator. *)
Lemma subscribe_draws_identifiers_witness :
  uuid_draws (snd (Part000.subscribe (sample_world healthy) sample_subscribe
                     (initial_state []))) = 1%nat.
Proof.
  destruct (subscribe_draws_identifiers (sample_world healthy)
              (initial_state []) sample_subscribe sample_subscribe VNull)
    as [H _].
  assert (R : recognised (lookup "plan_id" sample_subscribe))
    by (left; reflexivity).
  destruct (H (conj eq_refl R)) as [D _]. exact D.
Defined.

(** X15.  A term whose end leaves the range of valid dates is never sent
    to the database: [toISOString] throws on it before the first insert,
    so both variants make no call on the database client and answer 500,
    variant A with the text of the [RangeError], variant B with its fixed
    text and a console line. *)
Theorem subscribe_end_out_of_range (W : World) (s : State) (req : object) :
  let now := clock W (clock_reads s) in
  let invalid := {| exn_name := "RangeError";
                    exn_message := "Invalid time value" |} in
  (truthy (lookup "customer_info" req) = true ->
   IndexJs.term W (lookup "plan_id" req) (Some now) = None ->
   fst (IndexJs.subscribe W req s)
   = Ok (status_json 500 (VObj [("error", VStr "Invalid time value")]))
   /\ calls_made s (snd (IndexJs.subscribe W req s)) = []
   /\ db (snd (IndexJs.subscribe W req s)) = db s)
  /\ (complete_subscribe req = true ->
      Part000.term W (lookup "plan_id" req) (Some now) = Some None ->
      fst (Part000.subscribe W req s)
      = Ok (status_json 500 (VObj [("success", VBool false);
                                   ("error", VStr "Subscription failed")]))
      /\ calls_made s (snd (Part000.subscribe W req s)) = []
      /\ db (snd (Part000.subscribe W req s)) = db s
      /\ console (snd (Part000.subscribe W req s))
         = (console s ++ [("Subscribe error:", [invalid])])%list).
Proof.
  cbv zeta. split.
  - intros C T. unfold IndexJs.subscribe. run. rewrite C. run. rewrite T.
    run. repeat split. added. reflexivity.
  - intros C T. apply complete_subscribe_fields in C as (C1 & C2 & C3).
    unfold Part000.subscribe. run. rewrite C1, C2, C3. run. rewrite T.
    run. repeat split. added. reflexivity.
Qed.

(** A month after the last valid time value there is no date. *)
Lemma subscribe_end_out_of_range_witness :
  status_of_first (IndexJs.subscribe sample_world_late sample_subscribe
                     (initial_state [])) = Some 500
  /\ calls_made (initial_state [])
       (snd (Part000.subscribe sample_world_late sample_subscribe
               (initial_state []))) = [].
Proof.
  assert (TA : IndexJs.term sample_world_late
                 (lookup "plan_id" sample_subscribe)
                 (Some (clock sample_world_late
                          (clock_reads (initial_state [])))) = None)
    by (vm_compute; reflexivity).
  assert (TB : Part000.term sample_world_late
                 (lookup "plan_id" sample_subscribe)
                 (Some (clock sample_world_late
                          (clock_reads (initial_state [])))) = Some None)
    by (vm_compute; reflexivity).
  destruct (subscribe_end_out_of_range sample_world_late (initial_state [])
              sample_subscribe) as [HA HB].
  destruct (HA eq_refl TA) as [EA _]. destruct (HB eq_refl TB) as (_ & EB & _).
  unfold status_of_first. rewrite EA. split; [reflexivity | exact EB].
Defined.

(** *** The shape of an accepted address *)

Lemma count_char_app c a b :
  count_char c (a ++ b) = (count_char c a + count_char c b)%nat.
Proof.
  induction a as [|x a IH]; cbn; [reflexivity|].
  destruct (Ascii.eqb x c); rewrite IH; reflexivity.
Qed.

Lemma list_ascii_app a b :
  list_ascii_of_string (a ++ b)
  = (list_ascii_of_string a ++ list_ascii_of_string b)%list.
Proof. induction a; cbn; congruence. Qed.

Lemma string_length_app a b :
  String.length (a ++ b) = (String.length a + String.length b)%nat.
Proof. induction a; cbn; congruence. Qed.

Lemma not_space_at_inv c :
  not_space_at c = true -> is_space c = false /\ Ascii.eqb c "@" = false.
Proof.
  unfold not_space_at, is_char. intros H.
  apply andb_true_iff in H as [H1 H2].
  apply negb_true_iff in H1, H2. auto.
Qed.

Lemma clean_facts s :
  clean s ->
  count_char "@" s = 0%nat
  /\ (forall c, In c (list_ascii_of_string s) -> is_space c = false)
  /\ (1 <= String.length s)%nat.
Proof.
  intros [N H]. repeat split.
  - clear N. induction s as [|x s IH]; cbn; [reflexivity|].
    destruct (not_space_at_inv x (H x (or_introl eq_refl))) as [_ E].
    rewrite E. apply IH. intros c Hc. apply H. right. exact Hc.
  - intros c Hc. apply (not_space_at_inv c (H c Hc)).
  - destruct s; [congruence | cbn; lia].
Qed.

(** X16.  Every address the contact form of variant A lets through
    contains exactly one [@], no white space at all, and at least five
    characters; this holds of the text the expression is applied to,
    that is of the [email] field converted to a string. *)
Theorem accepted_address_shape (email : value) :
  regex_test emailRegex email = Some true ->
  exists text,
    to_string email = Some text
    /\ count_char "@" text = 1%nat
    /\ (forall c, In c (list_ascii_of_string text) -> is_space c = false)
    /\ (5 <= String.length text)%nat.
Proof.
  intros R. apply regex_test_simple_email in R as (text & T & R).
  exists text. split; [exact T|].
  destruct R as (l & d & t & E & Hl & Hd & Ht). rewrite E.
  apply clean_facts in Hl as (L1 & L2 & L3).
  apply clean_facts in Hd as (D1 & D2 & D3).
  apply clean_facts in Ht as (T1 & T2 & T3).
  repeat split.
  - rewrite !count_char_app, L1, D1, T1. reflexivity.
  - intros c Hc. rewrite !list_ascii_app, !in_app_iff in Hc.
    destruct Hc as [Hc | [Hc | [Hc | [Hc | Hc]]]]; auto;
      cbn in Hc; destruct Hc as [<- | []]; reflexivity.
  - rewrite !string_length_app. cbn. lia.
Qed.

(** The sample address. *)
Lemma accepted_address_shape_witness :
  count_char "@" "a@b.com" = 1%nat /\ (5 <= String.length "a@b.com")%nat.
Proof.
  destruct (accepted_address_shape (VStr "a@b.com"))
    as (text & T & C & _ & L).
  - vm_compute. reflexivity.
  - injection T as <-. split; assumption.
Defined.

(** *** Origins and listener *)

Section Startup.

Import Config.

Variable env : Env.

Lemma truthy_env_var name :
  truthy (env_var env name) = true <-> exists v, env name = Some v /\ v <> "".
Proof.
  unfold env_var. destruct (env name) as [v|]; cbn.
  - rewrite negb_true_iff. split.
    + intros H. exists v. split; [reflexivity|].
      intros ->. discriminate.
    + intros (w & [= <-] & N).
      destruct (String.eqb v "") eqn:E; [|reflexivity].
      apply String.eqb_eq in E. contradiction.
  - split; [discriminate | intros (w & [=] & _)].
Qed.

Lemma listed_A o :
  negb (indexOf IndexJsApp.allowedOrigins o =? -1) = true
  <-> o = VStr "https://shoplinno.vercel.app".
Proof.
  unfold indexOf, IndexJsApp.allowedOrigins, indexOf_from.
  destruct o; cbn [strict_eq]; try (split; [discriminate | discriminate]).
  destruct (String.eqb "https://shoplinno.vercel.app" s) eqn:E.
  - apply String.eqb_eq in E. subst. split; reflexivity.
  - apply String.eqb_neq in E. split; [discriminate|].
    intros [= ->]. contradiction.
Qed.

(** X17.  The origin check of variant A lets a request through exactly
    when [VERCEL] is set to a non-empty value, or the request names no
    origin, or its origin is [https://shoplinno.vercel.app]; every other
    request is refused with the error [Not allowed by CORS].  An origin
    it lets through on the strength of its list is also on the list of
    variant B. *)
Theorem origin_check_A (o : value) :
  let refused := Throw {| exn_name := "Error";
                          exn_message := "Not allowed by CORS" |} in
  (IndexJsApp.origin env o = Ok true
   <-> (exists v, env "VERCEL" = Some v /\ v <> "")
       \/ truthy o = false
       \/ o = VStr "https://shoplinno.vercel.app")
  /\ (IndexJsApp.origin env o <> Ok true -> IndexJsApp.origin env o = refused)
  /\ (truthy (env_var env "VERCEL") = false -> truthy o = true ->
      IndexJsApp.origin env o = Ok true -> In o Part000App.origin).
Proof.
  cbv zeta. unfold IndexJsApp.origin.
  pose proof (truthy_env_var "VERCEL") as V. pose proof (listed_A o) as L.
  destruct (truthy (env_var env "VERCEL")); destruct (truthy o);
    destruct (negb (indexOf IndexJsApp.allowedOrigins o =? -1));
    cbn [orb negb]; repeat split; intros; try congruence; auto;
    try (left; apply V; reflexivity);
    try (right; right; apply L; reflexivity);
    try (rewrite (proj1 L eq_refl); right; right; left; reflexivity).
  - destruct H as [H | [H | H]]; try discriminate.
    + apply V in H. discriminate.
    + apply L in H. discriminate.
Qed.

End Startup.

(** The allow-list at work when [VERCEL] is not set. *)
Lemma origin_check_A_witness :
  In (VStr "https://shoplinno.vercel.app") Config.Part000App.origin.
Proof.
  destruct (origin_check_A (Config.env_of [])
              (VStr "https://shoplinno.vercel.app")) as (_ & _ & H).
  apply H; reflexivity.
Defined.

Lemma PORT_cases (env : Config.Env) :
  (Config.PORT env = VNum "3001"
   /\ (env "PORT" = None \/ env "PORT" = Some ""))
  \/ exists v, env "PORT" = Some v /\ v <> "" /\ Config.PORT env = VStr v.
Proof.
  unfold Config.PORT, or_else, Config.env_var.
  destruct (env "PORT") as [v|]; cbn; [|left; auto].
  destruct (String.eqb v "") eqn:E; cbn.
  - apply String.eqb_eq in E. subst. left. auto.
  - apply String.eqb_neq in E. right. exists v. auto.
Qed.

Lemma falsy_env_var (env : Config.Env) name :
  truthy (Config.env_var env name) = false
  <-> env name = None \/ env name = Some "".
Proof.
  unfold Config.env_var. destruct (env name) as [v|]; cbn.
  - rewrite negb_false_iff, String.eqb_eq. split.
    + intros ->. auto.
    + intros [H | [= H]]; [discriminate | exact H].
  - split; auto.
Qed.

(** X18.  What becomes of the process at start-up.  Variant B leaves with
    exit code 1 exactly when [SUPABASE_URL] or [SUPABASE_SECRET_KEY] is
    missing or empty, before it creates a client or listens.  It opens a
    listener exactly when both are set, the client could be created and
    [VERCEL] is not defined or empty.  Variant A never leaves by itself;
    it opens a listener exactly when the client could be created and
    [VERCEL] is not defined.  So whenever A listens, B started in an
    environment with both variables would too, on the same port, and they
    part only for an empty [VERCEL].  The port is the [PORT] of the
    environment, or 3001 when that is missing or empty.  And whenever
    variant A listens by itself its allow-list is in force: a request
    that names another origin is refused. *)
Theorem listener_policy (createClient : Config.CreateClient)
    (env : Config.Env) :
  let url := Config.env_var env "SUPABASE_URL" in
  let key := Config.env_var env "SUPABASE_SECRET_KEY" in
  let A := Config.IndexJsApp.start createClient env in
  let B := Config.Part000App.start createClient env in
  (B = Config.Exits 1 <-> truthy url = false \/ truthy key = false)
  /\ (forall port,
        B = Config.Listens port
        <-> truthy url = true /\ truthy key = true
            /\ createClient url key = None
            /\ (env "VERCEL" = None \/ env "VERCEL" = Some "")
            /\ port = Config.PORT env)
  /\ (forall port,
        A = Config.Listens port
        <-> createClient url key = None /\ env "VERCEL" = None
            /\ port = Config.PORT env)
  /\ (forall code, A <> Config.Exits code)
  /\ (forall port,
        A = Config.Listens port ->
        (truthy url = true -> truthy key = true -> B = A)
        /\ forall o,
             truthy o = true -> o <> VStr "https://shoplinno.vercel.app" ->
             Config.IndexJsApp.origin env o
             = Throw {| exn_name := "Error";
                        exn_message := "Not allowed by CORS" |})
  /\ ((Config.PORT env = VNum "3001"
       /\ (env "PORT" = None \/ env "PORT" = Some ""))
      \/ exists v, env "PORT" = Some v /\ v <> "" /\ Config.PORT env = VStr v).
Proof.
  cbv zeta.
  rewrite <- !and_assoc. split; [|apply PORT_cases]. rewrite !and_assoc.
  pose proof (listed_A) as L.
  unfold Config.Part000App.start, Config.IndexJsApp.start,
    Config.IndexJsApp.origin.
  set (url := Config.env_var env "SUPABASE_URL").
  set (key := Config.env_var env "SUPABASE_SECRET_KEY").
  destruct (truthy url) eqn:U; destruct (truthy key) eqn:K;
    cbn [negb orb];
    destruct (createClient url key) as [x|] eqn:CC;
    unfold Config.env_var;
    (destruct (env "VERCEL") as [v|] eqn:EV;
     cbn [Config.strict_eq truthy negb orb];
     [destruct (String.eqb v "") eqn:E; cbn [negb];
      [apply String.eqb_eq in E; subst v | apply String.eqb_neq in E]|]);
    repeat match goal with
           | |- _ /\ _ => split
           | |- _ <-> _ => split
           | |- forall _, _ => intro
           | H : _ /\ _ |- _ => destruct H
           end;
    try discriminate; try congruence; auto;
    try solve [intuition congruence];
    match goal with
    | T : truthy ?o = true |- _ =>
        rewrite T; cbn [negb orb];
        destruct (negb (Config.indexOf Config.IndexJsApp.allowedOrigins o
                        =? -1)) eqn:I; [|reflexivity];
        apply L in I; contradiction
    end.
Qed.

(** With both variables set and nothing else, variant B listens on port
    3001; with no variable set it leaves with exit code 1. *)
Lemma listener_policy_witness :
  Config.Part000App.start createClient_ok
    (Config.env_of [("SUPABASE_URL", "https://db.example.org");
                    ("SUPABASE_SECRET_KEY", "secret")])
  = Config.Listens (VNum "3001")
  /\ Config.Part000App.start createClient_ok (Config.env_of [])
     = Config.Exits 1.
Proof.
  destruct (listener_policy createClient_ok
              (Config.env_of [("SUPABASE_URL", "https://db.example.org");
                              ("SUPABASE_SECRET_KEY", "secret")]))
    as (_ & H & _).
  destruct (listener_policy createClient_ok (Config.env_of []))
    as (G & _).
  split.
  - apply H. repeat split; auto.
  - apply G. left. reflexivity.
Defined.

End ExtraFacts.
